(** * gerbil: the GPU hasher task (include/gerbil/GpuHasher.h)

    A shallow embedding of [gerbil::gpu::HasherTask<K>]: its constructor, the
    thread body spawned by [hash] for every device, and the fixed-width
    arithmetic of the throughput measurement.  The classes the header only
    uses ([KmerCountingHashTable], [KmerDistributer], [TempFile],
    [gpu::KMerBundle], [std::chrono::steady_clock]) are interfaces here; every
    statement below is quantified over their implementations. *)

From Stdlib Require Import ZArith List Bool Lia String Permutation.
From Stdlib Require Import Floats.SpecFloat.
Import ListNotations.
Local Open Scope Z_scope.

(** ** Fixed-width integers *)

Module Fixed.

Definition two64 : Z := 2 ^ 64.
Definition two63 : Z := 2 ^ 63.

(** [(uint32_t) -1], the start value of [curTempFileId]. *)
Definition uint32_max : Z := 2 ^ 32 - 1.

(** Conversion to [uint64_t]. *)
Definition to_u64 (z : Z) : Z := z mod two64.

(** Two's complement wrap-around of the [int64_t] representation of
    [std::chrono::microseconds]. *)
Definition to_s64 (z : Z) : Z := (z + two63) mod two64 - two63.

Definition add_u64 (a b : Z) : Z := to_u64 (a + b).
Definition sub_u64 (a b : Z) : Z := to_u64 (a - b).
Definition add_s64 (a b : Z) : Z := to_s64 (a + b).

(** [a / b] on [uint64_t]: undefined for [b = 0], the floor otherwise. *)
Definition div_u64 (a b : Z) : option Z :=
  if b =? 0 then None else Some (a / b).

Definition is_u64 (z : Z) : Prop := 0 <= z < two64.
Definition is_s64 (z : Z) : Prop := - two63 <= z < two63.

End Fixed.

(** ** [float]: IEEE 754 binary32 *)

Module Float32.

Definition prec : Z := 24.
Definition emax : Z := 128.

Definition float32 : Type := spec_float.

(** Conversion of a [uint64_t] to [float], rounding to nearest even. *)
Definition of_u64 (z : Z) : float32 := binary_normalize prec emax z 0 false.

Definition zero : float32 := S754_zero false.

(** Sign bit clear and neither NaN nor infinite. *)
Definition nonneg_finite (f : float32) : bool :=
  match f with
  | S754_zero s => negb s
  | S754_finite s _ _ => negb s
  | S754_infinity _ => false
  | S754_nan => false
  end.

(** The integer part of a float, rounding toward zero; none for NaN and
    the infinities. *)
Definition trunc (f : float32) : option Z :=
  match f with
  | S754_zero _ => Some 0
  | S754_finite s m e =>
      let v := if 0 <=? e then Zpos m * 2 ^ e else Zpos m / 2 ^ (- e) in
      Some (if s then - v else v)
  | S754_infinity _ => None
  | S754_nan => None
  end.

(** Conversion of a [float] to [uint64_t]: the integer part when it is a
    value of the type, undefined otherwise. *)
Definition to_u64_defined (f : float32) : option Z :=
  match trunc f with
  | Some z => if (0 <=? z) && (z <? Fixed.two64) then Some z else None
  | None => None
  end.

(** The [double] literal [0.9]: the binary64 number nearest to 9/10. *)
Definition double_0_9 : spec_float :=
  SFdiv 53 1024 (binary_normalize 53 1024 9 0 false)
                (binary_normalize 53 1024 10 0 false).

End Float32.

Import Fixed Float32.

(** ** Collaborators *)

(** [gpu::KMerBundle<K>]: what the thread reads of a bundle. *)
Class KMerBundle (B : Type) := {
  getTempFileId : B -> Z
}.

(** [KmerCountingHashTable<K>] over bundles [B]. *)
Class KmerCountingHashTable (T B : Type) := {
  extractAndClear : T -> T;
  init : Z -> T -> T;
  addBundle : B -> T -> T;
  getKMersNumber : T -> Z;
  getUKMersNumber : T -> Z;
  getUKMersNumberBelowThreshold : T -> Z;
  getMaxCapacity : T -> Z
}.

(** [KmerDistributer]; the first argument of each method is the [gpu] flag. *)
Class KmerDistributer (D : Type) := {
  updateCapacity : bool -> Z -> Z -> D -> D;
  updateThroughput : bool -> Z -> float32 -> D -> D;
  getSplitRatio : bool -> Z -> Z -> D -> float32 * D
}.

(** [std::chrono::steady_clock] and [duration_cast<microseconds>] applied to
    the difference of two of its time points. *)
Class SteadyClock (C : Type) := {
  now : C -> Z * C;
  duration_cast_ms : Z -> Z
}.

(** Modelled from the spec: the declaration of
    [TempFile::approximateUniqueKmers], which GpuHasher.h only calls.  The
    spec gives its result as a non-negative integer, a [uint64_t] here; its
    argument is a [double]. *)
Class TempFile (F : Type) := {
  approximateUniqueKmers : F -> spec_float -> Z
}.

(** What a conversion from [float] to [uint64_t] yields on this machine
    where the language leaves it undefined. *)
Class Platform := {
  out_of_range_u64 : float32 -> Z
}.

(** [(uint64_t) f] *)
Definition u64_of_float `{Platform} (f : float32) : Z :=
  match to_u64_defined f with
  | Some z => z
  | None => out_of_range_u64 f
  end.

(** [estimate * ratio] of line 171, assigned to the [uint64_t newSize]: the
    integer is converted to [float], the product is taken in binary32 and
    rounded to nearest even, and the result is converted to [uint64_t]. *)
Definition times_ratio `{Platform} (estimate : Z) (ratio : float32) : Z :=
  u64_of_float (SFmul prec emax (of_u64 estimate) ratio).

(** The calls a hasher thread makes on its table and on the distributor, in
    the order it makes them. *)
Inductive Call (B : Type) : Type :=
| CExtractAndClear
| CUpdateThroughput (gpu : bool) (devID : Z) (throughput : float32)
| CGetSplitRatio (gpu : bool) (devID : Z) (tempFileId : Z)
| CInit (newSize : Z)
| CAddBundle (kmb : B).

Arguments CExtractAndClear {B}.
Arguments CUpdateThroughput {B} gpu devID throughput.
Arguments CGetSplitRatio {B} gpu devID tempFileId.
Arguments CInit {B} newSize.
Arguments CAddBundle {B} kmb.

(** The time a call on a collaborator takes: the clock after the call made
    while the clock was in a given state. *)
Class Elapse (C B : Type) := {
  elapse : Call B -> C -> C
}.

Definition is_extract {B} (c : Call B) : bool :=
  match c with CExtractAndClear => true | _ => false end.

Definition is_update {B} (c : Call B) : bool :=
  match c with CUpdateThroughput _ _ _ => true | _ => false end.

Definition is_init {B} (c : Call B) : bool :=
  match c with CInit _ => true | _ => false end.

Definition is_table_call {B} (c : Call B) : bool :=
  match c with
  | CExtractAndClear | CInit _ | CAddBundle _ => true
  | _ => false
  end.

Definition count_calls {B} (p : Call B -> bool) (l : list (Call B)) : nat :=
  List.length (filter p l).

(** ** The throughput expression *)

(** [duration.count() != 0 ? processedKMers / duration.count() : 0],
    converted to [float].  The quotient is taken on [uint64_t]: the signed
    count is converted to unsigned first. *)
Definition throughput_of (processedKMers duration : Z) : option float32 :=
  if negb (duration =? 0)
  then option_map of_u64 (div_u64 processedKMers (to_u64 duration))
  else Some (of_u64 0).

(** ** The hasher thread *)

Section Thread.

Context {T B D C F : Type}.
Context `{KMerBundle B} `{KmerCountingHashTable T B} `{KmerDistributer D}
        `{SteadyClock C} `{Elapse C B} `{TempFile F} `{Platform}.

(** The array [_tempFiles]. *)
Variable tempFiles : Z -> F.

(** What a thread works on: its table, the shared distributor and
    statistics, the clock, and its three local variables. *)
Record Thread : Type := mkThread {
  table : T;
  distributor : D;
  clock : C;
  kMersNumber : Z;
  uKMersNumber : Z;
  btUKMersNumber : Z;
  curTempFileId : Z;
  binKMers : Z;
  duration : Z
}.

Definition set_table t s :=
  mkThread t (distributor s) (clock s) (kMersNumber s) (uKMersNumber s)
           (btUKMersNumber s) (curTempFileId s) (binKMers s) (duration s).
Definition set_distributor d s :=
  mkThread (table s) d (clock s) (kMersNumber s) (uKMersNumber s)
           (btUKMersNumber s) (curTempFileId s) (binKMers s) (duration s).
Definition set_clock c s :=
  mkThread (table s) (distributor s) c (kMersNumber s) (uKMersNumber s)
           (btUKMersNumber s) (curTempFileId s) (binKMers s) (duration s).
Definition set_stats k u bt s :=
  mkThread (table s) (distributor s) (clock s) k u bt
           (curTempFileId s) (binKMers s) (duration s).
Definition set_curTempFileId i s :=
  mkThread (table s) (distributor s) (clock s) (kMersNumber s)
           (uKMersNumber s) (btUKMersNumber s) i (binKMers s) (duration s).
Definition set_binKMers n s :=
  mkThread (table s) (distributor s) (clock s) (kMersNumber s)
           (uKMersNumber s) (btUKMersNumber s) (curTempFileId s) n
           (duration s).
Definition set_duration d s :=
  mkThread (table s) (distributor s) (clock s) (kMersNumber s)
           (uKMersNumber s) (btUKMersNumber s) (curTempFileId s)
           (binKMers s) d.

(** A computation of the thread: it may fault ([None]), and otherwise
    yields a value, the next state and the calls it made. *)
Definition Run (A : Type) : Type := Thread -> option (A * Thread * list (Call B)).

Definition ret {A} (a : A) : Run A := fun s => Some (a, s, []).

Definition bind {A A'} (m : Run A) (f : A -> Run A') : Run A' :=
  fun s =>
    match m s with
    | None => None
    | Some (a, s1, l1) =>
        match f a s1 with
        | None => None
        | Some (b, s2, l2) => Some (b, s2, l1 ++ l2)
        end
    end.

Definition read {A} (f : Thread -> A) : Run A := fun s => Some (f s, s, []).
Definition write (f : Thread -> Thread) : Run unit := fun s => Some (tt, f s, []).
(** A call that changes the state by [f]; time passes while it is made. *)
Definition call (c : Call B) (f : Thread -> Thread) : Run unit :=
  fun s => Some (tt, set_clock (elapse c (clock s)) (f s), [c]).
Definition defined {A} (o : option A) : Run A :=
  fun s => match o with Some a => Some (a, s, []) | None => None end.

Definition steady_clock_now : Run Z :=
  fun s => let (t, c) := now (clock s) in Some (t, set_clock c s, []).

Definition distributor_getSplitRatio (gpu : bool) (devID fileId : Z) : Run float32 :=
  fun s => let (r, d) := getSplitRatio gpu devID fileId (distributor s) in
           Some (r,
                 set_clock (elapse (CGetSplitRatio gpu devID fileId) (clock s))
                           (set_distributor d s),
                 [CGetSplitRatio gpu devID fileId]).

Definition table_extractAndClear : Run unit :=
  call CExtractAndClear (fun s => set_table (extractAndClear (table s)) s).
Definition table_init (newSize : Z) : Run unit :=
  call (CInit newSize) (fun s => set_table (init newSize (table s)) s).
Definition table_addBundle (kmb : B) : Run unit :=
  call (CAddBundle kmb) (fun s => set_table (addBundle kmb (table s)) s).
Definition distributor_updateThroughput (gpu : bool) (devID : Z)
    (throughput : float32) : Run unit :=
  call (CUpdateThroughput gpu devID throughput)
       (fun s => set_distributor
                   (updateThroughput gpu devID throughput (distributor s)) s).

Local Notation "x <- m ;; k" := (bind m (fun x => k))
  (at level 61, m at next level, right associativity).
Local Notation "m ;; k" := (bind m (fun _ => k))
  (at level 61, right associativity).

(** The body of [if (curTempFileId != kmb->getTempFileId())], lines
    153-178. *)
Definition file_change (devID : Z) (kmb : B) : Run unit :=
  (* Extract kmer counts from table *)
  start <- steady_clock_now ;;
  table_extractAndClear ;;
  stop <- steady_clock_now ;;
  (* measure time since last extraction and determine throughput *)
  d <- read duration ;;
  write (set_duration (add_s64 d (duration_cast_ms (stop - start)))) ;;
  n <- read (fun s => getKMersNumber (table s)) ;;
  bin <- read binKMers ;;
  let processedKMers := sub_u64 n bin in
  (* report throughput to the kmer distributor *)
  d <- read duration ;;
  throughput <- defined (throughput_of processedKMers d) ;;
  distributor_updateThroughput true devID throughput ;;
  (* update new file id *)
  write (set_curTempFileId (getTempFileId kmb)) ;;
  (* request new ratio of kmers and determine expected number of distinct kmers *)
  cur <- read curTempFileId ;;
  ratio <- distributor_getSplitRatio true devID cur ;;
  let newSize :=
    times_ratio (approximateUniqueKmers (tempFiles cur) double_0_9) ratio in
  (* resize the hash table *)
  table_init newSize ;;
  (* reset timer and kmer counter *)
  n <- read (fun s => getKMersNumber (table s)) ;;
  write (set_binKMers n) ;;
  write (set_duration 0).

(** Lines 181-185: insert bundle into table. *)
Definition insert_bundle (kmb : B) : Run unit :=
  start <- steady_clock_now ;;
  table_addBundle kmb ;;
  stop <- steady_clock_now ;;
  d <- read duration ;;
  write (set_duration (add_s64 d (duration_cast_ms (stop - start)))).

(** One turn of the [while] loop, for the bundle [kmb] just popped. *)
Definition iteration (devID : Z) (kmb : B) : Run unit :=
  cur <- read curTempFileId ;;
  (if negb (cur =? getTempFileId kmb) then file_change devID kmb else ret tt) ;;
  insert_bundle kmb.

(** [SyncSwapQueueMPSC::swapPop] on the bundles the queue still delivers
    before it is closed: it fails exactly when none is left. *)
Definition swapPop (q : list B) : option (B * list B) :=
  match q with
  | [] => None
  | kmb :: q' => Some (kmb, q')
  end.

(** [while (kMerQueue->swapPop(kmb)) { ... }] *)
Fixpoint while_swapPop (devID : Z) (q : list B) : Run unit :=
  match q with
  | [] => ret tt
  | kmb :: q' => iteration devID kmb ;; while_swapPop devID q'
  end.

(** Lines 190-194: the last extraction and the three atomic additions. *)
Definition finish : Run unit :=
  table_extractAndClear ;;
  write (fun s =>
    set_stats
      (add_u64 (kMersNumber s) (getKMersNumber (table s)))
      (add_u64 (uKMersNumber s) (getUKMersNumber (table s)))
      (add_u64 (btUKMersNumber s) (getUKMersNumberBelowThreshold (table s)))
      s).

(** The thread spawned by [hash] for device [devID], run on the bundles
    its queue delivers. *)
Definition hash_thread (devID : Z) (q : list B) : Run unit :=
  write (set_curTempFileId uint32_max) ;;
  write (set_binKMers 0) ;;
  write (set_duration 0) ;;
  while_swapPop devID q ;;
  finish.

(** The state in which the loop is entered: the declarations of lines
    139-145 give the three local variables their start values. *)
Definition spawned (s : Thread) : Thread :=
  set_duration 0 (set_binKMers 0 (set_curTempFileId uint32_max s)).

(** What [duration_cast<ms>(stop - start)] yields for the call [k] bracketed
    by two readings of the clock: [start] is read in clock state [c], the
    call is made, [stop] is read after it; and the clock state after the
    second reading. *)
Definition measured (k : Call B) (c : C) : Z :=
  duration_cast_ms (fst (now (elapse k (snd (now c)))) - fst (now c)).

Definition after_measure (k : Call B) (c : C) : C :=
  snd (now (elapse k (snd (now c)))).

(** The value of [duration] after the measured insertions of the bundles
    [q]. *)
Fixpoint accumulate (q : list B) (c : C) (d : Z) : Z :=
  match q with
  | [] => d
  | kmb :: q' =>
      accumulate q' (after_measure (CAddBundle kmb) c)
                 (add_s64 d (measured (CAddBundle kmb) c))
  end.

(** For a file change detected in state [s]: the elapsed time and the number
    of k-mers that enter the throughput expression. *)
Definition window_elapsed (s : Thread) : Z :=
  add_s64 (duration s) (measured CExtractAndClear (clock s)).

Definition window_processed (s : Thread) : Z :=
  sub_u64 (getKMersNumber (extractAndClear (table s))) (binKMers s).

(** The tracked file id after bundles with the ids [ids] were popped,
    starting from the tracked id [cur]: the id of the last one. *)
Fixpoint tracked (cur : Z) (ids : list Z) : Z :=
  match ids with
  | [] => cur
  | i :: ids' => tracked i ids'
  end.

(** How often the file id changes along a sequence of ids, starting from
    the tracked id [cur]. *)
Fixpoint file_changes (cur : Z) (ids : list Z) : nat :=
  match ids with
  | [] => O
  | i :: ids' => ((if Z.eqb cur i then 0 else 1) + file_changes i ids')%nat
  end.

(** Every extraction in [l] is directly followed by a throughput report of
    device [devID], and [l] has no other report. *)
Fixpoint each_extract_reported (devID : Z) (l : list (Call B)) : bool :=
  match l with
  | [] => true
  | CExtractAndClear :: l' =>
      match l' with
      | CUpdateThroughput true d _ :: l'' =>
          (d =? devID) && each_extract_reported devID l''
      | _ => false
      end
  | CUpdateThroughput _ _ _ :: _ => false
  | _ :: l' => each_extract_reported devID l'
  end.

(** The ratio a file change obtains, the size it asks the table for, and the
    state it leaves. *)
Definition ratio_for (devID fileId : Z) (thr : float32) (s : Thread) : float32 * D :=
  getSplitRatio true devID fileId (updateThroughput true devID thr (distributor s)).

Definition newSize_for (devID fileId : Z) (thr : float32) (s : Thread) : Z :=
  times_ratio (approximateUniqueKmers (tempFiles fileId) double_0_9)
              (fst (ratio_for devID fileId thr s)).

Definition resized (devID fileId : Z) (thr : float32) (s : Thread) : Thread :=
  let t := init (newSize_for devID fileId thr s) (extractAndClear (table s)) in
  mkThread t (snd (ratio_for devID fileId thr s))
           (elapse (CInit (newSize_for devID fileId thr s))
              (elapse (CGetSplitRatio true devID fileId)
                 (elapse (CUpdateThroughput true devID thr)
                    (after_measure CExtractAndClear (clock s)))))
           (kMersNumber s) (uKMersNumber s) (btUKMersNumber s)
           fileId (getKMersNumber t) 0.

(** The state an insertion leaves. *)
Definition inserted (kmb : B) (s : Thread) : Thread :=
  mkThread (addBundle kmb (table s)) (distributor s)
           (after_measure (CAddBundle kmb) (clock s))
           (kMersNumber s) (uKMersNumber s) (btUKMersNumber s)
           (curTempFileId s) (binKMers s)
           (add_s64 (duration s) (measured (CAddBundle kmb) (clock s))).

(** The state the last extraction and the additions to the statistics
    leave. *)
Definition finished (s : Thread) : Thread :=
  let t := extractAndClear (table s) in
  mkThread t (distributor s) (elapse CExtractAndClear (clock s))
           (add_u64 (kMersNumber s) (getKMersNumber t))
           (add_u64 (uKMersNumber s) (getUKMersNumber t))
           (add_u64 (btUKMersNumber s) (getUKMersNumberBelowThreshold t))
           (curTempFileId s) (binKMers s) (duration s).

(** The calls of one turn of the loop that detects a file change. *)
Definition change_calls (devID : Z) (kmb : B) (thr : float32) (newSize : Z)
  : list (Call B) :=
  [CExtractAndClear; CUpdateThroughput true devID thr;
   CGetSplitRatio true devID (getTempFileId kmb); CInit newSize;
   CAddBundle kmb].

Definition calls {A} (r : option (A * Thread * list (Call B))) : list (Call B) :=
  match r with
  | Some (_, _, l) => l
  | None => []
  end.

End Thread.

(** ** The constructor and [hash] *)

Inductive result (A : Type) : Type :=
| Ok (a : A)
| Throw (what : string).

Arguments Ok {A} a.
Arguments Throw {A} what.

Definition no_gpu_support : string :=
  "Gerbil Error! Method not callable without GPU support!".

Section HasherTask.

Context {T B D : Type}.
Context `{KmerCountingHashTable T B} `{KmerDistributer D}.

(** Whether the header is compiled with [GPU] defined. *)
Variable GPU : bool.

(** [new KmerCountingHashTable<K>(i, _kmcSyncSwapQueue, _thresholdMin,
    _tempPath)], which may throw. *)
Variable newTable : Z -> result T.

Record HasherTask : Type := mkHasherTask {
  _numThreads : Z;
  tables : list T;
  _kMersNumber : Z;
  _uKMersNumber : Z;
  _btUKMersNumber : Z
}.

(** The [for] loop of the constructor, [n] turns from index [i] on:
    create the table of each device and report its capacity. *)
Fixpoint create_tables (n : nat) (i : Z) (d : D) : result (list T * D) :=
  match n with
  | O => Ok ([], d)
  | S n' =>
      match newTable i with
      | Throw w => Throw w
      | Ok t =>
          match create_tables n' (i + 1)
                  (updateCapacity true i (getMaxCapacity t) d) with
          | Throw w => Throw w
          | Ok (ts, d') => Ok (t :: ts, d')
          end
      end
  end.

(** [HasherTask::HasherTask], with the distributor it reports to. *)
Definition HasherTask_new (numThreads : Z) (d : D) : result (HasherTask * D) :=
  if GPU then
    match create_tables (Z.to_nat numThreads) 0 d with
    | Throw w => Throw w
    | Ok (ts, d') => Ok (mkHasherTask numThreads ts 0 0 0, d')
    end
  else Ok (mkHasherTask numThreads [] 0 0 0, d).

(** The [for] loop of [hash], [n] turns from [devID] on; the result lists
    the devices a thread was spawned for. *)
Fixpoint spawn_threads (n : nat) (devID : Z) : result (list Z) :=
  match n with
  | O => Ok []
  | S n' =>
      if GPU then
        match spawn_threads n' (devID + 1) with
        | Throw w => Throw w
        | Ok l => Ok (devID :: l)
        end
      else Throw no_gpu_support
  end.

Definition hash (h : HasherTask) : result (list Z) :=
  spawn_threads (Z.to_nat (_numThreads h)) 0.

End HasherTask.

(** ** Observations on the calls of a thread *)

Definition is_add {B} (c : Call B) : bool :=
  match c with CAddBundle _ => true | _ => false end.

(** No [init] in [l] without an [extractAndClear] as the table call just
    before it; [extracted] tells whether the last table call so far was an
    extraction.  Calls on the distributor lie between table calls and are
    passed over. *)
Fixpoint resets_follow_extractions {B} (extracted : bool) (l : list (Call B)) : bool :=
  match l with
  | [] => true
  | CExtractAndClear :: l' => resets_follow_extractions true l'
  | CInit _ :: l' => extracted && resets_follow_extractions false l'
  | CAddBundle _ :: l' => resets_follow_extractions false l'
  | _ :: l' => resets_follow_extractions extracted l'
  end.

(** A call on the distributor made for the GPU device [devID]. *)
Definition for_device {B} (devID : Z) (c : Call B) : bool :=
  match c with
  | CUpdateThroughput gpu d _ => gpu && (d =? devID)
  | CGetSplitRatio gpu d _ => gpu && (d =? devID)
  | _ => true
  end.

(** Every ratio request in [l] names the file of the bundle inserted right
    after the resize that follows the request. *)
Fixpoint ratios_for_next_bundle {B} `{KMerBundle B} (l : list (Call B)) : bool :=
  match l with
  | [] => true
  | CGetSplitRatio _ _ f :: l' =>
      match l' with
      | CInit _ :: CAddBundle kmb :: l'' =>
          (f =? getTempFileId kmb) && ratios_for_next_bundle l''
      | _ => false
      end
  | _ :: l' => ratios_for_next_bundle l'
  end.

(** ** The statistics of the task *)

Section Statistics.

Context {T B : Type} `{KmerCountingHashTable T B}.

(** The three atomic additions of lines 192-194, made by the thread that
    owns table [t], on the counters [(_kMersNumber, _uKMersNumber,
    _btUKMersNumber)]. *)
Definition add_statistics (t : T) (st : Z * Z * Z) : Z * Z * Z :=
  let '(k, u, bt) := st in
  (add_u64 k (getKMersNumber t),
   add_u64 u (getUKMersNumber t),
   add_u64 bt (getUKMersNumberBelowThreshold t)).

(** The counters after the threads owning the tables [ts] made their
    additions one after the other, in the order of [ts]. *)
Definition statistics_after (ts : list T) (st : Z * Z * Z) : Z * Z * Z :=
  fold_left (fun st t => add_statistics t st) ts st.

End Statistics.

(** ** The capacities reported by the constructor *)

Section Capacities.

Context {T B D : Type}.
Context `{KmerCountingHashTable T B} `{KmerDistributer D}.

(** The capacity reports of the constructor, for the tables [ts] of the
    devices [i], [i+1], ... *)
Definition capacities_reported (i : Z) (ts : list T) (d : D) : D :=
  fold_left (fun d it => updateCapacity true (fst it) (getMaxCapacity (snd it)) d)
            (combine (map (fun k => i + Z.of_nat k) (seq 0 (List.length ts))) ts) d.

End Capacities.

(** ** The array [_threads] *)

(** What an element of [_threads] holds: the indeterminate value [new[]]
    leaves, [nullptr], a thread running the body for a device, or the
    pointer left behind by [delete]. *)
Inductive Slot : Type :=
| Indeterminate
| Nullptr
| Running (devID : Z)
| Dangling.

(** [l[i] = x]; nothing is stored outside the list. *)
Fixpoint store {A} (i : nat) (x : A) (l : list A) : list A :=
  match l, i with
  | [], _ => []
  | _ :: l', O => x :: l'
  | y :: l', S i' => y :: store i' x l'
  end.

(** The device ids [0 .. n-1]. *)
Definition device_ids (n : nat) : list Z := map Z.of_nat (seq 0 n).

Section Threads.

(** Whether the header is compiled with [GPU] defined. *)
Variable GPU : bool.

(** [_threads] as the constructor leaves it: allocated by line 85, and with
    [GPU] set to [nullptr] element by element on line 91. *)
Definition new_threads (numThreads : Z) : list Slot :=
  repeat (if GPU then Nullptr else Indeterminate) (Z.to_nat numThreads).

(** [_threads] after [hash]: each thread spawned is stored at the index of
    its device. *)
Definition hash_threads (numThreads : Z) (threads : list Slot) : result (list Slot) :=
  match spawn_threads GPU (Z.to_nat numThreads) 0 with
  | Throw w => Throw w
  | Ok devs =>
      Ok (fold_left (fun sl d => store (Z.to_nat d) (Running d) sl) devs threads)
  end.

(** The loop of [join], [n] turns from index [i] on: [_threads[i]->join()]
    needs a thread behind the pointer, and [delete] leaves the pointer
    dangling.  [None] stands for the undefined behaviour of any other
    dereference.  The result lists the devices joined. *)
Fixpoint join_loop (n : nat) (i : nat) (threads : list Slot) : option (list Z * list Slot) :=
  match n with
  | O => Some ([], threads)
  | S n' =>
      match nth_error threads i with
      | Some (Running d) =>
          match join_loop n' (S i) (store i Dangling threads) with
          | Some (ds, sl) => Some (d :: ds, sl)
          | None => None
          end
      | _ => None
      end
  end.

Definition join (numThreads : Z) (threads : list Slot) : option (list Z * list Slot) :=
  join_loop (Z.to_nat numThreads) 0 threads.

End Threads.

(** ** The clock that records

    What happens to the clock of a thread, in order: a reading, or the
    passing of the time of a call.  The clock whose state is this record
    shows where the readings of a run lie between its calls. *)

Inductive Tick (B : Type) : Type :=
| Read
| Passed (k : Call B).

Arguments Read {B}.
Arguments Passed {B} k.

#[global] Instance recording_clock {B : Type} : SteadyClock (list (Tick B)) := {
  now c := (0, c ++ [Read]);
  duration_cast_ms d := d
}.

#[global] Instance recording_elapse {B : Type} : Elapse (list (Tick B)) B := {
  elapse k c := c ++ [Passed k]
}.

(** How a call shows in the record when the insertions and the extractions
    are bracketed by two readings and no other call is. *)
Definition bracketed {B} (k : Call B) : list (Tick B) :=
  if is_add k || is_extract k then [Read; Passed k; Read] else [Passed k].

(** ** A reference implementation of the collaborators

    Simple stand-ins on which the thread can be run: a table that keeps the
    k-mers of its bundles, a distributor that remembers the reports it got,
    a clock on which every call takes a fixed time, and temp files given by
    their estimate. *)

Module Sim.

Record Bundle : Type := mkBundle {
  tempFileId : Z;
  kmers : list Z
}.

#[global] Instance bundle_ops : KMerBundle Bundle := {
  getTempFileId := tempFileId
}.

Record Table : Type := mkTable {
  capacity : Z;
  stored : list Z;
  inserted : Z
}.

#[global] Instance table_ops : KmerCountingHashTable Table Bundle := {
  extractAndClear t := mkTable (capacity t) [] (inserted t);
  init n t := mkTable n [] (inserted t);
  addBundle b t :=
    mkTable (capacity t) (stored t ++ kmers b)
            (add_u64 (inserted t) (Z.of_nat (List.length (kmers b))));
  getKMersNumber t := inserted t;
  getUKMersNumber t := 0;
  getUKMersNumberBelowThreshold t := 0;
  getMaxCapacity t := capacity t
}.

(** The reports received, latest first. *)
Definition Distributor : Type := list (Z * float32).

#[global] Instance distributor_ops : KmerDistributer Distributor := {
  updateCapacity gpu i c d := d;
  updateThroughput gpu i thr d := (i, thr) :: d;
  getSplitRatio gpu i f d := (of_u64 1, d)
}.

(** The clock counts microseconds.  A reading takes no time; an insertion
    and an extraction take [tick] microseconds each, every other call 1. *)
Definition tick : Z := 3.

Definition cost (k : Call Bundle) : Z :=
  match k with
  | CExtractAndClear => tick
  | CAddBundle _ => tick
  | _ => 1
  end.

#[global] Instance clock_ops : SteadyClock Z := {
  now c := (c, c);
  duration_cast_ms d := d
}.

#[global] Instance elapse_ops : Elapse Z Bundle := {
  elapse k c := c + cost k
}.

(** A clock that stands still: every measured duration is 0. *)
Inductive Frozen : Type := frozen.

#[global] Instance frozen_ops : SteadyClock Frozen := {
  now c := (0, c);
  duration_cast_ms d := d
}.

#[global] Instance frozen_elapse_ops : Elapse Frozen Bundle := {
  elapse k c := c
}.

(** Temp files given by their estimate. *)
#[global] Instance tempfile_ops : TempFile Z := {
  approximateUniqueKmers f conf := f
}.

#[global] Instance platform_ops : Platform := {
  out_of_range_u64 f := 0
}.

Definition tempFiles (i : Z) : Z := 1000 * (i + 1).

Definition start : Thread (T := Table) (D := Distributor) (C := Z) :=
  mkThread (mkTable 0 [] 0) [] 0 0 0 0 0 0 0.

Definition run (devID : Z) (q : list Bundle) :=
  hash_thread tempFiles devID q start.

Definition start_frozen : Thread (T := Table) (D := Distributor) (C := Frozen) :=
  mkThread (mkTable 0 [] 0) [] frozen 0 0 0 0 0 0.

(** A table constructor for a machine without any device. *)
Definition no_device (i : Z) : result Table := Throw "no CUDA device".

(** A thread that has inserted twelve k-mers of file 0 in its window. *)
Definition twelve : Bundle := mkBundle 0 [1; 2; 3; 4; 5; 6; 7; 8; 9; 10; 11; 12].

(** The number of k-mers of a bundle. *)
Definition size (b : Bundle) : Z := Z.of_nat (List.length (kmers b)).

(** A table constructor that succeeds for every device. *)
Definition fresh_table (i : Z) : result Table := Ok (mkTable (100 * (i + 1)) [] 0).

Definition fileA : Z := 0.
Definition fileB : Z := 1.

Definition scenarioA : list Bundle :=
  [mkBundle fileA [1; 2]; mkBundle fileA [2; 3]; mkBundle fileA [1];
   mkBundle fileB [4; 4]; mkBundle fileB [5]].

End Sim.

(** * Properties *)

(** ** Conversion to [float] never leaves the finite non-negative numbers *)

Lemma digits2_pos_log2 (p : positive) : Zpos (digits2_pos p) = Z.log2 (Zpos p) + 1.
Proof.
  assert (E : forall q, digits2_pos q = Pos.size q).
  { induction q; simpl; congruence. }
  rewrite E. destruct p; simpl; try reflexivity; rewrite Pos.add_1_r; reflexivity.
Qed.

Lemma Zdigits2_le (m M : Z) : 0 <= m <= M -> 0 < M -> 0 <= Zdigits2 m <= Z.log2 M + 1.
Proof.
  intros Hm HM. destruct m as [|p|p]; simpl.
  - pose proof (Z.log2_nonneg M). lia.
  - rewrite digits2_pos_log2. pose proof (Z.log2_le_mono (Zpos p) M). 
    pose proof (Z.log2_nonneg (Zpos p)). lia.
  - lia.
Qed.

Lemma shr_1_bounds (mrs : shr_record) :
  0 <= shr_m mrs -> 0 <= shr_m (shr_1 mrs) <= shr_m mrs.
Proof.
  destruct mrs as [m r s]. simpl. destruct m as [|[p|p|]|[p|p|]]; simpl; lia.
Qed.

Lemma iter_shr_1_bounds (p : positive) : forall mrs,
  0 <= shr_m mrs -> 0 <= shr_m (iter_pos shr_1 p mrs) <= shr_m mrs.
Proof.
  induction p; intros mrs Hm; simpl.
  - pose proof (shr_1_bounds mrs Hm) as H1.
    pose proof (IHp _ (proj1 H1)) as H2.
    pose proof (IHp _ (proj1 H2)). lia.
  - pose proof (IHp mrs Hm) as H1. pose proof (IHp _ (proj1 H1)). lia.
  - apply shr_1_bounds; assumption.
Qed.

Lemma shr_m_of_loc m l : shr_m (shr_record_of_loc m l) = m.
Proof. destruct l as [|[]]; reflexivity. Qed.

Section Rounding.

Variables prec emax : Z.

Lemma shr_fexp_bounds (m e : Z) (l : location) :
0 <= m ->
0 <= shr_m (fst (shr_fexp prec emax m e l)) <= m /\
snd (shr_fexp prec emax m e l) = Z.max e (fexp prec emax (Zdigits2 m + e)).
Proof.
intros Hm. unfold shr_fexp, shr.
destruct (fexp prec emax (Zdigits2 m + e) - e) as [|n|n] eqn:En; simpl.
- rewrite shr_m_of_loc. lia.
- pose proof (iter_shr_1_bounds n (shr_record_of_loc m l)) as Hb.
  rewrite shr_m_of_loc in Hb. split; [apply Hb; assumption | lia].
- rewrite shr_m_of_loc. lia.
Qed.

Lemma round_nearest_even_bounds (m : Z) (l : location) :
0 <= m -> m <= round_nearest_even m l <= m + 1.
Proof.
intros Hm. unfold round_nearest_even. destruct l as [|[]]; try lia.
destruct (Z.even m); lia.
Qed.
End Rounding.

Lemma digits2_pos_iter (p d : positive) :
  digits2_pos (Pos.iter xO p d) = (digits2_pos p + d)%positive.
Proof.
  induction d using Pos.peano_ind.
  - simpl. rewrite Pos.add_1_r. reflexivity.
  - rewrite Pos.iter_succ. simpl. rewrite IHd. lia.
Qed.

Lemma binary_round_aux_nonneg_finite (m e : Z) (l : location) :
  0 < m -> Z.log2 m + e <= 63 -> e <= 40 -> -23 <= e -> 
  nonneg_finite (binary_round_aux 24 128 false m e l) = true.
Proof.
  intros Hm Hd He He'. unfold binary_round_aux.
  pose proof (shr_fexp_bounds 24 128 m e l ltac:(lia)) as [Hm1 He1].
  destruct (shr_fexp 24 128 m e l) as [mrs' e']. simpl in Hm1, He1.
  set (m2 := round_nearest_even (shr_m mrs') (loc_of_shr_record mrs')).
  pose proof (round_nearest_even_bounds (shr_m mrs') (loc_of_shr_record mrs') (proj1 Hm1)) as Hr.
  fold m2 in Hr.
  pose proof (shr_fexp_bounds 24 128 m2 e' loc_Exact ltac:(lia)) as [Hm2 He2].
  destruct (shr_fexp 24 128 m2 e' loc_Exact) as [mrs'' e'']. simpl in Hm2, He2.
  pose proof (Zdigits2_le m m ltac:(lia) Hm) as Hdm.
  pose proof (Zdigits2_le m2 (m + 1) ltac:(lia) ltac:(lia)) as Hdm2.
  pose proof (Z.log2_succ_le m) as Hs. unfold Z.succ in Hs.
  assert (Hdig : Zdigits2 m = Z.log2 m + 1).
  { destruct m; try lia. simpl. apply digits2_pos_log2. }
  unfold fexp, emin in He1, He2.
  destruct (shr_m mrs'') as [|q|q]; try reflexivity; try lia.
  destruct (e'' <=? 128 - 24) eqn:Hle; try reflexivity.
  apply Z.leb_gt in Hle. lia.
Qed.

Lemma of_u64_nonneg_finite (z : Z) :
  is_u64 z -> nonneg_finite (of_u64 z) = true.
Proof.
  intros Hz. unfold is_u64, two64 in Hz. unfold of_u64, binary_normalize, prec, emax.
  destruct z as [|p|p]; try reflexivity; try lia.
  unfold binary_round, shl_align.
  assert (Hlog : Z.log2 (Zpos p) < 64) by (apply Z.log2_lt_pow2; lia).
  pose proof (Z.log2_nonneg (Zpos p)) as Hnn.
  pose proof (digits2_pos_log2 p) as Hd.
  rewrite Z.add_0_r, Z.sub_0_r.
  unfold fexp, emin. rewrite Hd.
  destruct (Z.max (Z.log2 (Z.pos p) + 1 - 24) (3 - 128 - 24)) as [|d|d] eqn:Ed.
  - apply binary_round_aux_nonneg_finite; lia.
  - apply binary_round_aux_nonneg_finite; lia.
  - pose proof (digits2_pos_log2 (Pos.iter xO p d)) as Hd'.
    rewrite digits2_pos_iter in Hd'.
    apply binary_round_aux_nonneg_finite; lia.
Qed.

(** ** Fixed-width arithmetic *)

Lemma to_s64_range (z : Z) : is_s64 (to_s64 z).
Proof.
  unfold is_s64, to_s64, two63, two64.
  pose proof (Z.mod_pos_bound (z + 2 ^ 63) (2 ^ 64) ltac:(lia)). lia.
Qed.

Lemma to_u64_range (z : Z) : is_u64 (to_u64 z).
Proof.
  unfold is_u64, to_u64, two64. apply Z.mod_pos_bound. lia.
Qed.

Lemma to_u64_s64_nonzero (d : Z) : is_s64 d -> d <> 0 -> to_u64 d <> 0.
Proof.
  unfold is_s64, to_u64, two63, two64. intros Hd Hnz Hm.
  destruct (Z_lt_le_dec d 0) as [Hneg | Hpos].
  - assert (E : d mod 2 ^ 64 = d + 2 ^ 64).
    { symmetry. apply Z.mod_unique with (q := -1); lia. }
    lia.
  - rewrite Z.mod_small in Hm; lia.
Qed.

Lemma to_u64_small (d : Z) : 0 <= d < two63 -> to_u64 d = d.
Proof.
  unfold to_u64, two63, two64. intros Hd. apply Z.mod_small. lia.
Qed.

(** ** The throughput expression *)

Lemma throughput_of_zero (p : Z) : throughput_of p 0 = Some zero.
Proof. reflexivity. Qed.

Lemma throughput_of_nonzero (p d : Z) :
  is_s64 d -> d <> 0 -> throughput_of p d = Some (of_u64 (p / to_u64 d)).
Proof.
  intros Hd Hnz. unfold throughput_of, div_u64.
  destruct (Z.eqb_spec d 0) as [|_]; [contradiction|]. simpl.
  destruct (Z.eqb_spec (to_u64 d) 0) as [Hz|_]; [|reflexivity].
  exfalso. exact (to_u64_s64_nonzero d Hd Hnz Hz).
Qed.

Lemma throughput_of_defined (p d : Z) :
  is_u64 p -> is_s64 d ->
  exists thr, throughput_of p d = Some thr /\ nonneg_finite thr = true.
Proof.
  intros Hp Hd. destruct (Z.eq_dec d 0) as [-> | Hnz].
  - exists zero. split; reflexivity.
  - exists (of_u64 (p / to_u64 d)). split.
    + apply throughput_of_nonzero; assumption.
    + apply of_u64_nonneg_finite.
      pose proof (to_u64_range d) as Hr.
      pose proof (to_u64_s64_nonzero d Hd Hnz) as Hn.
      unfold is_u64 in *. split.
      * apply Z.div_pos; lia.
      * apply Z.le_lt_trans with p; [|lia].
        apply Z.div_le_upper_bound; nia.
Qed.

(** ** Equations of the thread body *)

Section ThreadFacts.

Context {T B D C F : Type}.
Context `{KMerBundle B} `{KmerCountingHashTable T B} `{KmerDistributer D}
        `{SteadyClock C} `{Elapse C B} `{TempFile F} `{Platform}.

Variable tempFiles : Z -> F.
Variable devID : Z.

Local Abbreviation State := (Thread (T := T) (D := D) (C := C)).

Lemma file_change_eq (kmb : B) (s : State) :
  file_change tempFiles devID kmb s =
  match throughput_of (window_processed s) (window_elapsed s) with
  | None => None
  | Some thr =>
      Some (tt, resized tempFiles devID (getTempFileId kmb) thr s,
            [CExtractAndClear; CUpdateThroughput true devID thr;
             CGetSplitRatio true devID (getTempFileId kmb);
             CInit (newSize_for tempFiles devID (getTempFileId kmb) thr s)])
  end.
Proof.
  unfold file_change, bind, steady_clock_now, table_extractAndClear,
    table_init, distributor_updateThroughput, distributor_getSplitRatio,
    call, read, write, defined, window_processed, window_elapsed, measured,
    resized, newSize_for, ratio_for, after_measure.
  destruct s as [t d c k u bt cur bin dur]. simpl.
  destruct (now c) as [t0 c1]. simpl.
  destruct (now (elapse CExtractAndClear c1)) as [t1 c2]. simpl.
  destruct (throughput_of _ _) as [thr|]; [|reflexivity]. simpl.
  destruct (getSplitRatio true devID (getTempFileId kmb)
              (updateThroughput true devID thr d)) as [r d2].
  reflexivity.
Qed.

Lemma insert_bundle_eq (kmb : B) (s : State) :
  insert_bundle kmb s = Some (tt, inserted kmb s, [CAddBundle kmb]).
Proof.
  unfold insert_bundle, bind, steady_clock_now, table_addBundle, call, read,
    write, inserted, measured, after_measure.
  destruct s as [t d c k u bt cur bin dur]. simpl.
  destruct (now c) as [t0 c1]. simpl.
  destruct (now (elapse (CAddBundle kmb) c1)) as [t1 c2]. reflexivity.
Qed.

(** A file change never faults: the window it closes has a throughput. *)
Lemma window_throughput (s : State) :
  exists thr,
    throughput_of (window_processed s) (window_elapsed s) = Some thr /\
    nonneg_finite thr = true.
Proof.
  apply throughput_of_defined.
  - apply to_u64_range.
  - apply to_s64_range.
Qed.

Lemma iteration_same (kmb : B) (s : State) :
  curTempFileId s = getTempFileId kmb ->
  iteration tempFiles devID kmb s = Some (tt, inserted kmb s, [CAddBundle kmb]).
Proof.
  intros Hc. unfold iteration, bind, read. rewrite Hc, Z.eqb_refl. simpl.
  unfold ret. rewrite insert_bundle_eq. reflexivity.
Qed.

Lemma iteration_change (kmb : B) (s : State) (thr : float32) :
  curTempFileId s <> getTempFileId kmb ->
  throughput_of (window_processed s) (window_elapsed s) = Some thr ->
  iteration tempFiles devID kmb s =
  Some (tt, inserted kmb (resized tempFiles devID (getTempFileId kmb) thr s),
        [CExtractAndClear; CUpdateThroughput true devID thr;
         CGetSplitRatio true devID (getTempFileId kmb);
         CInit (newSize_for tempFiles devID (getTempFileId kmb) thr s);
         CAddBundle kmb]).
Proof.
  intros Hc Ht. unfold iteration, bind, read.
  destruct (Z.eqb_spec (curTempFileId s) (getTempFileId kmb)) as [|_];
    [contradiction|]. simpl.
  rewrite file_change_eq, Ht, insert_bundle_eq. reflexivity.
Qed.

(** One turn of the loop always completes, in one of two ways. *)
Lemma iteration_cases (kmb : B) (s : State) :
  (curTempFileId s = getTempFileId kmb /\
   iteration tempFiles devID kmb s = Some (tt, inserted kmb s, [CAddBundle kmb]))
  \/
  (curTempFileId s <> getTempFileId kmb /\
   exists thr,
     throughput_of (window_processed s) (window_elapsed s) = Some thr /\
     nonneg_finite thr = true /\
     iteration tempFiles devID kmb s =
     Some (tt, inserted kmb (resized tempFiles devID (getTempFileId kmb) thr s),
           change_calls devID kmb thr
             (newSize_for tempFiles devID (getTempFileId kmb) thr s))).
Proof.
  destruct (Z.eq_dec (curTempFileId s) (getTempFileId kmb)) as [Hc | Hc].
  - left. split; [assumption|]. apply iteration_same; assumption.
  - right. split; [assumption|].
    destruct (window_throughput s) as [thr [Ht Hn]].
    exists thr. repeat split; try assumption.
    apply iteration_change; assumption.
Qed.

Lemma iteration_total (kmb : B) (s : State) :
  exists s' l,
    iteration tempFiles devID kmb s = Some (tt, s', l) /\
    curTempFileId s' = getTempFileId kmb.
Proof.
  destruct (iteration_cases kmb s) as [[Hc Hi] | [Hc [thr [_ [_ Hi]]]]];
    rewrite Hi; eexists; eexists; split; try reflexivity.
  exact Hc.
Qed.

Lemma while_swapPop_cons (kmb : B) (q : list B) (s s1 : State) (l1 : list (Call B)) :
  iteration tempFiles devID kmb s = Some (tt, s1, l1) ->
  while_swapPop tempFiles devID (kmb :: q) s =
  match while_swapPop tempFiles devID q s1 with
  | None => None
  | Some (_, s2, l2) => Some (tt, s2, l1 ++ l2)
  end.
Proof.
  intros Hi. simpl. unfold bind. rewrite Hi.
  destruct (while_swapPop tempFiles devID q s1) as [[[[] s2] l2]|]; reflexivity.
Qed.

(** The loop runs as long as [swapPop] succeeds. *)
Lemma while_swapPop_unfold (q : list B) (s : State) :
  while_swapPop tempFiles devID q s =
  match swapPop q with
  | None => ret tt s
  | Some (kmb, q') =>
      bind (iteration tempFiles devID kmb)
           (fun _ => while_swapPop tempFiles devID q') s
  end.
Proof. destruct q; reflexivity. Qed.

Lemma while_swapPop_total (q : list B) : forall s : State,
  exists s' l, while_swapPop tempFiles devID q s = Some (tt, s', l).
Proof.
  induction q as [|kmb q IH]; intros s.
  - exists s, []. reflexivity.
  - destruct (iteration_total kmb s) as [s1 [l1 [Hi _]]].
    destruct (IH s1) as [s2 [l2 Hw]].
    exists s2, (l1 ++ l2). rewrite (while_swapPop_cons _ _ _ _ _ Hi), Hw.
    reflexivity.
Qed.

Lemma while_swapPop_app (q1 q2 : list B) : forall (s s1 s2 : State) l1 l2,
  while_swapPop tempFiles devID q1 s = Some (tt, s1, l1) ->
  while_swapPop tempFiles devID q2 s1 = Some (tt, s2, l2) ->
  while_swapPop tempFiles devID (q1 ++ q2) s = Some (tt, s2, l1 ++ l2).
Proof.
  induction q1 as [|kmb q1 IH]; intros s s1 s2 l1 l2 Hq1 Hq2.
  - simpl in Hq1. unfold ret in Hq1. inversion Hq1; subst. exact Hq2.
  - destruct (iteration_total kmb s) as [sa [la [Hi _]]].
    rewrite (while_swapPop_cons _ _ _ _ _ Hi) in Hq1.
    destruct (while_swapPop tempFiles devID q1 sa) as [[[[] sb] lb]|] eqn:Hw;
      [|discriminate].
    inversion Hq1; subst.
    rewrite <- app_comm_cons, (while_swapPop_cons _ _ _ _ _ Hi).
    rewrite (IH _ _ _ _ _ Hw Hq2), app_assoc. reflexivity.
Qed.

(** The tracked file id after the loop is that of the last bundle. *)
Lemma while_swapPop_cur (q : list B) : forall (s s' : State) l,
  while_swapPop tempFiles devID q s = Some (tt, s', l) ->
  curTempFileId s' = tracked (curTempFileId s) (map getTempFileId q).
Proof.
  induction q as [|kmb q IH]; intros s s' l Hw.
  - simpl in Hw. unfold ret in Hw. inversion Hw; subst. reflexivity.
  - destruct (iteration_total kmb s) as [s1 [l1 [Hi Hc]]].
    rewrite (while_swapPop_cons _ _ _ _ _ Hi) in Hw.
    destruct (while_swapPop tempFiles devID q s1) as [[[[] s2] l2]|] eqn:Hq;
      [|discriminate].
    inversion Hw; subst. rewrite (IH _ _ _ Hq), Hc. reflexivity.
Qed.

Lemma hash_thread_eq (q : list B) (s : State) :
  hash_thread tempFiles devID q s =
  match while_swapPop tempFiles devID q (spawned s) with
  | None => None
  | Some (_, s1, l1) => Some (tt, finished s1, l1 ++ [CExtractAndClear])
  end.
Proof.
  unfold hash_thread, bind, write, finish, table_extractAndClear, call. simpl.
  fold (spawned s).
  destruct (while_swapPop tempFiles devID q (spawned s)) as [[[[] s1] l1]|];
    reflexivity.
Qed.

(** A queue closed before it delivered anything: one extraction. *)
Lemma hash_thread_closed_queue (s : State) :
  hash_thread tempFiles devID [] s =
  Some (tt, finished (spawned s), [CExtractAndClear]).
Proof. rewrite hash_thread_eq. reflexivity. Qed.

(** A run of bundles of the tracked file is inserted one after the other,
    with no other call. *)
Lemma while_swapPop_same_file (q : list B) : forall s : State,
  Forall (fun b => getTempFileId b = curTempFileId s) q ->
  exists s',
    while_swapPop tempFiles devID q s = Some (tt, s', map CAddBundle q) /\
    curTempFileId s' = curTempFileId s /\
    binKMers s' = binKMers s /\
    duration s' = accumulate q (clock s) (duration s).
Proof.
  induction q as [|kmb q IH]; intros s Hq.
  - exists s. repeat split; reflexivity.
  - inversion Hq as [|? ? Hk Hq']; subst.
    pose proof (iteration_same kmb s (eq_sym Hk)) as Hi.
    destruct (IH (inserted kmb s) Hq') as [s' [Hw [Hc [Hb Hd]]]].
    exists s'. rewrite (while_swapPop_cons _ _ _ _ _ Hi), Hw.
    repeat split; assumption.
Qed.

Lemma count_calls_app (p : Call B -> bool) (l1 l2 : list (Call B)) :
  count_calls p (l1 ++ l2) = (count_calls p l1 + count_calls p l2)%nat.
Proof. unfold count_calls. rewrite filter_app, length_app. reflexivity. Qed.

(** What the loop calls: one extraction, one report and one resize per
    change of the file id, each extraction directly followed by its report. *)
Lemma while_swapPop_calls (q : list B) : forall (s s' : State) l,
  while_swapPop tempFiles devID q s = Some (tt, s', l) ->
  count_calls is_extract l = file_changes (curTempFileId s) (map getTempFileId q) /\
  count_calls is_update l = count_calls is_extract l /\
  count_calls is_init l = count_calls is_extract l /\
  forall l', each_extract_reported devID (l ++ l') = each_extract_reported devID l'.
Proof.
  induction q as [|kmb q IH]; intros s s' l Hw.
  - simpl in Hw. unfold ret in Hw. inversion Hw; subst.
    repeat split; reflexivity.
  - destruct (iteration_total kmb s) as [s1 [l1 [Hi Hc]]].
    rewrite (while_swapPop_cons _ _ _ _ _ Hi) in Hw.
    destruct (while_swapPop tempFiles devID q s1) as [[[[] s2] l2]|] eqn:Hq;
      [|discriminate].
    inversion Hw; subst. clear Hw.
    destruct (IH _ _ _ Hq) as [He [Hu [Hn Hr]]]. rewrite Hc in He.
    rewrite !count_calls_app, He, Hu, Hn, He. simpl map. simpl file_changes.
    destruct (iteration_cases kmb s) as [[Hs Hi'] | [Hs [thr [_ [_ Hi']]]]];
      rewrite Hi' in Hi; inversion Hi; subst.
    + rewrite Hs, Z.eqb_refl. repeat split; try reflexivity.
      intros l'. simpl. apply Hr.
    + destruct (Z.eqb_spec (curTempFileId s) (getTempFileId kmb)) as [|_];
        [contradiction|].
      repeat split; try reflexivity.
      intros l'. simpl. rewrite Z.eqb_refl. simpl. apply Hr.
Qed.

(** ** The file-boundary protocol *)

(** C1.  Whenever the bundle [kmb] popped after the bundles [q1] carries a
    file id other than the tracked one, the turn of the loop for [kmb]
    makes exactly five calls: [extractAndClear], the throughput report, the
    ratio request, one [init] and then [addBundle kmb].  It leaves the table
    extracted, then initialized, then filled with [kmb], in this order; the
    run then goes on with the bundles [q2] from that state and ends with the
    last extraction. *)
Theorem C1_file_boundary_order (q1 q2 : list B) (kmb : B) (s : State) :
  getTempFileId kmb <> tracked uint32_max (map getTempFileId q1) ->
  exists s1 l1 thr newSize s2 s3 l2,
    while_swapPop tempFiles devID q1 (spawned s) = Some (tt, s1, l1) /\
    curTempFileId s1 = tracked uint32_max (map getTempFileId q1) /\
    iteration tempFiles devID kmb s1 =
      Some (tt, s2, change_calls devID kmb thr newSize) /\
    table s2 = addBundle kmb (init newSize (extractAndClear (table s1))) /\
    while_swapPop tempFiles devID q2 s2 = Some (tt, s3, l2) /\
    hash_thread tempFiles devID (q1 ++ kmb :: q2) s =
      Some (tt, finished s3,
            l1 ++ change_calls devID kmb thr newSize ++ l2 ++ [CExtractAndClear]) /\
    filter is_table_call (change_calls devID kmb thr newSize) =
      [CExtractAndClear; CInit newSize; CAddBundle kmb].
Proof.
  intros Hk.
  destruct (while_swapPop_total q1 (spawned s)) as [s1 [l1 Hw1]].
  pose proof (while_swapPop_cur _ _ _ _ Hw1) as Hc. simpl in Hc.
  destruct (iteration_cases kmb s1) as [[Hs _] | [_ [thr [_ [_ Hi]]]]];
    [rewrite Hc in Hs; congruence|].
  destruct (while_swapPop_total q2
              (inserted kmb (resized tempFiles devID (getTempFileId kmb) thr s1)))
    as [s3 [l2 Hw2]].
  exists s1, l1, thr, (newSize_for tempFiles devID (getTempFileId kmb) thr s1),
    (inserted kmb (resized tempFiles devID (getTempFileId kmb) thr s1)), s3, l2.
  repeat split; try assumption.
  rewrite hash_thread_eq.
  assert (Hk2 : while_swapPop tempFiles devID (kmb :: q2) s1 =
                Some (tt, s3, change_calls devID kmb thr
                  (newSize_for tempFiles devID (getTempFileId kmb) thr s1) ++ l2)).
  { rewrite (while_swapPop_cons _ _ _ _ _ Hi), Hw2. reflexivity. }
  rewrite (while_swapPop_app _ _ _ _ _ _ _ Hw1 Hk2).
  rewrite <- !app_assoc. reflexivity.
Qed.

(** C4.  The body run on a change of the file id asks the distributor for
    the ratio of this device and the new file, and initializes the table
    with the product of the new file's estimate at 0.9 and that ratio: the
    estimate converted to [float], multiplied by the ratio in binary32, and
    converted to [uint64_t], which is the integer part of the product
    whenever that is a [uint64_t].  It then sets [binKMers] to the table's
    k-mer counter and [duration] to 0, and tracks the new file id; the
    bundle is inserted only then. *)
Theorem C4_resize (kmb : B) (s : State) :
  curTempFileId s <> getTempFileId kmb ->
  exists thr,
    let fileId := getTempFileId kmb in
    let ratio :=
      fst (getSplitRatio true devID fileId
             (updateThroughput true devID thr (distributor s))) in
    let estimate := approximateUniqueKmers (tempFiles fileId) double_0_9 in
    let product := SFmul prec emax (of_u64 estimate) ratio in
    let newSize := u64_of_float product in
    let s1 := resized tempFiles devID fileId thr s in
    file_change tempFiles devID kmb s =
      Some (tt, s1, [CExtractAndClear; CUpdateThroughput true devID thr;
                     CGetSplitRatio true devID fileId; CInit newSize]) /\
    (forall z, trunc product = Some z -> 0 <= z < two64 -> newSize = z) /\
    table s1 = init newSize (extractAndClear (table s)) /\
    binKMers s1 = getKMersNumber (table s1) /\
    duration s1 = 0 /\
    curTempFileId s1 = fileId /\
    iteration tempFiles devID kmb s =
      Some (tt, inserted kmb s1, change_calls devID kmb thr newSize) /\
    table (inserted kmb s1) = addBundle kmb (table s1).
Proof.
  intros Hc. destruct (window_throughput s) as [thr [Ht _]].
  exists thr. cbv zeta. repeat split.
  - rewrite file_change_eq, Ht. reflexivity.
  - intros z Hz Hr. unfold u64_of_float, to_u64_defined. rewrite Hz.
    destruct (Z.leb_spec 0 z) as [_|]; [|lia].
    destruct (Z.ltb_spec z two64) as [_|]; [|lia]. reflexivity.
  - apply iteration_change; assumption.
Qed.

(** C5.  The throughput of a window is always defined, whatever the table
    counter, the baseline and the clock are: the division is never by zero,
    the reported value is a finite float with a clear sign bit, and it is
    +0 when the elapsed time of the window is 0. *)
Theorem C5_throughput_never_faults (kmb : B) (s : State) :
  exists thr,
    throughput_of (window_processed s) (window_elapsed s) = Some thr /\
    file_change tempFiles devID kmb s =
      Some (tt, resized tempFiles devID (getTempFileId kmb) thr s,
            [CExtractAndClear; CUpdateThroughput true devID thr;
             CGetSplitRatio true devID (getTempFileId kmb);
             CInit (newSize_for tempFiles devID (getTempFileId kmb) thr s)]) /\
    nonneg_finite thr = true /\
    (window_elapsed s = 0 -> thr = zero).
Proof.
  destruct (window_throughput s) as [thr [Ht Hn]].
  exists thr. repeat split; try assumption.
  - rewrite file_change_eq, Ht. reflexivity.
  - intros Hz. rewrite Hz, throughput_of_zero in Ht. congruence.
Qed.

(** C10.  When the elapsed time of the window is positive, the reported
    throughput is the float nearest to the floor of processed k-mers over
    elapsed microseconds, the quotient being taken on unsigned integers; a
    window with fewer k-mers than microseconds reports +0. *)
Theorem C10_throughput_floor (kmb : B) (s : State) :
  0 < window_elapsed s ->
  let quotient := window_processed s / window_elapsed s in
  let thr := of_u64 quotient in
  file_change tempFiles devID kmb s =
    Some (tt, resized tempFiles devID (getTempFileId kmb) thr s,
          [CExtractAndClear; CUpdateThroughput true devID thr;
           CGetSplitRatio true devID (getTempFileId kmb);
           CInit (newSize_for tempFiles devID (getTempFileId kmb) thr s)]) /\
  quotient * window_elapsed s <= window_processed s
    < (quotient + 1) * window_elapsed s /\
  (window_processed s < window_elapsed s -> thr = zero).
Proof.
  intros Hpos. cbv zeta.
  pose proof (to_s64_range (duration s + measured CExtractAndClear (clock s)))
    as Hr.
  fold (add_s64 (duration s) (measured CExtractAndClear (clock s))) in Hr.
  fold (window_elapsed s) in Hr.
  pose proof (to_u64_range
    (getKMersNumber (extractAndClear (table s)) - binKMers s)) as Hp.
  fold (sub_u64 (getKMersNumber (extractAndClear (table s))) (binKMers s)) in Hp.
  fold (window_processed s) in Hp.
  unfold is_s64 in Hr. unfold is_u64 in Hp.
  repeat split.
  - rewrite file_change_eq, throughput_of_nonzero;
      [|exact Hr|lia].
    rewrite to_u64_small by lia. reflexivity.
  - rewrite Z.mul_comm. apply Z.mul_div_le. lia.
  - pose proof (Z.mul_succ_div_gt (window_processed s) (window_elapsed s) Hpos).
    lia.
  - intros Hlt. rewrite Z.div_small by lia. reflexivity.
Qed.

(** The loop leaves the statistics of the task alone. *)
Lemma while_swapPop_stats (q : list B) : forall (s s' : State) l,
  while_swapPop tempFiles devID q s = Some (tt, s', l) ->
  kMersNumber s' = kMersNumber s /\
  uKMersNumber s' = uKMersNumber s /\
  btUKMersNumber s' = btUKMersNumber s.
Proof.
  induction q as [|kmb q IH]; intros s s' l Hw.
  - simpl in Hw. unfold ret in Hw. inversion Hw; subst. repeat split.
  - destruct (iteration_cases kmb s) as [[_ Hi] | [_ [thr [_ [_ Hi]]]]];
      rewrite (while_swapPop_cons _ _ _ _ _ Hi) in Hw;
      match type of Hw with
      | match ?w with _ => _ end = _ =>
          destruct w as [[[[] s2] l2]|] eqn:Hq; [|discriminate]
      end;
      inversion Hw; subst; exact (IH _ _ _ Hq).
Qed.

(** A change of the file id followed by further bundles of the new file. *)
Lemma while_swapPop_change_then_same (kmb : B) (q : list B) (s : State) :
  curTempFileId s <> getTempFileId kmb ->
  Forall (fun b => getTempFileId b = getTempFileId kmb) q ->
  exists thr newSize s',
    while_swapPop tempFiles devID (kmb :: q) s =
      Some (tt, s', change_calls devID kmb thr newSize ++ map CAddBundle q) /\
    curTempFileId s' = getTempFileId kmb.
Proof.
  intros Hc Hq.
  destruct (iteration_cases kmb s) as [[Hs _] | [_ [thr [_ [_ Hi]]]]];
    [contradiction|].
  destruct (while_swapPop_same_file q
              (inserted kmb (resized tempFiles devID (getTempFileId kmb) thr s)) Hq)
    as [s' [Hw [Hc' _]]].
  exists thr, (newSize_for tempFiles devID (getTempFileId kmb) thr s), s'.
  rewrite (while_swapPop_cons _ _ _ _ _ Hi), Hw. split; [reflexivity|exact Hc'].
Qed.

(** C2, as the code has it.  Three bundles of a file A and two of a file B
    make the thread extract three times when A is not the start value
    [2^32 - 1] of the tracked id: when the first pop reveals A (the table
    was never filled), when the fourth pop reveals B, and after the queue is
    closed. *)
Theorem C2_scenarioA_three_extractions (a1 a2 a3 b1 b2 : B) (fA fB : Z) (s : State) :
  getTempFileId a1 = fA -> getTempFileId a2 = fA -> getTempFileId a3 = fA ->
  getTempFileId b1 = fB -> getTempFileId b2 = fB ->
  fA <> fB -> fA <> uint32_max ->
  exists thrA sizeA thrB sizeB s',
    hash_thread tempFiles devID [a1; a2; a3; b1; b2] s =
      Some (tt, s',
            change_calls devID a1 thrA sizeA ++ [CAddBundle a2; CAddBundle a3] ++
            change_calls devID b1 thrB sizeB ++ [CAddBundle b2] ++
            [CExtractAndClear]) /\
    count_calls is_extract (calls (hash_thread tempFiles devID [a1; a2; a3; b1; b2] s))
      = 3%nat.
Proof.
  intros Ha1 Ha2 Ha3 Hb1 Hb2 Hab Hsent.
  destruct (while_swapPop_change_then_same a1 [a2; a3] (spawned s))
    as [thrA [sizeA [sA [HwA HcA]]]].
  { simpl. congruence. }
  { repeat constructor; congruence. }
  destruct (while_swapPop_change_then_same b1 [b2] sA)
    as [thrB [sizeB [sB [HwB _]]]].
  { congruence. }
  { repeat constructor; congruence. }
  exists thrA, sizeA, thrB, sizeB, (finished sB).
  assert (Hrun : hash_thread tempFiles devID [a1; a2; a3; b1; b2] s =
    Some (tt, finished sB,
          change_calls devID a1 thrA sizeA ++ [CAddBundle a2; CAddBundle a3] ++
          change_calls devID b1 thrB sizeB ++ [CAddBundle b2] ++
          [CExtractAndClear])).
  { rewrite hash_thread_eq.
    change [a1; a2; a3; b1; b2] with ((a1 :: [a2; a3]) ++ (b1 :: [b2])).
    rewrite (while_swapPop_app _ _ _ _ _ _ _ HwA HwB). reflexivity. }
  split; [exact Hrun|]. rewrite Hrun. reflexivity.
Qed.

(** C3, as the code has it.  Every extraction made inside the loop is
    directly followed by one report of this device's throughput, and there
    is no other report; the extraction made after the queue is closed is
    the last call of the thread and is followed by none.  A run therefore
    reports once per change of the file id, one time less than it
    extracts. *)
Theorem C3_reports_follow_file_changes (q : list B) (s : State) :
  exists s' l,
    hash_thread tempFiles devID q s = Some (tt, s', l ++ [CExtractAndClear]) /\
    each_extract_reported devID l = true /\
    count_calls is_update (l ++ [CExtractAndClear]) =
      file_changes uint32_max (map getTempFileId q) /\
    count_calls is_extract (l ++ [CExtractAndClear]) =
      S (count_calls is_update (l ++ [CExtractAndClear])).
Proof.
  destruct (while_swapPop_total q (spawned s)) as [s1 [l Hw]].
  destruct (while_swapPop_calls _ _ _ _ Hw) as [He [Hu [_ Hr]]].
  simpl in He.
  exists (finished s1), l. rewrite hash_thread_eq, Hw.
  repeat split.
  - rewrite <- (app_nil_r l) at 1. rewrite Hr. reflexivity.
  - rewrite count_calls_app, Hu, He. simpl. apply Nat.add_0_r.
  - rewrite !count_calls_app, Hu. simpl. rewrite Nat.add_0_r. apply Nat.add_1_r.
Qed.

(** C6.  For every sequence of bundles and every state the thread starts
    in, the loop ends when the pop fails, and the thread then calls
    [extractAndClear] exactly once more, whatever the table holds, adds the
    table's counters to the statistics and returns.  With the extractions
    of the loop, one per change of the file id, that makes one more
    extraction than file changes. *)
Theorem C6_final_extraction (q : list B) (s : State) :
  exists s1 l1,
    while_swapPop tempFiles devID q (spawned s) = Some (tt, s1, l1) /\
    hash_thread tempFiles devID q s =
      Some (tt, finished s1, l1 ++ [CExtractAndClear]) /\
    table (finished s1) = extractAndClear (table s1) /\
    kMersNumber (finished s1) =
      add_u64 (kMersNumber s) (getKMersNumber (extractAndClear (table s1))) /\
    count_calls is_extract l1 = file_changes uint32_max (map getTempFileId q) /\
    count_calls is_extract (l1 ++ [CExtractAndClear]) =
      S (file_changes uint32_max (map getTempFileId q)).
Proof.
  destruct (while_swapPop_total q (spawned s)) as [s1 [l1 Hw]].
  destruct (while_swapPop_calls _ _ _ _ Hw) as [He _]. simpl in He.
  exists s1, l1. rewrite hash_thread_eq, Hw.
  destruct (while_swapPop_stats _ _ _ _ Hw) as [Hk _]. simpl in Hk.
  repeat split; try assumption.
  - simpl. rewrite Hk. reflexivity.
  - rewrite count_calls_app, He. simpl. apply Nat.add_1_r.
Qed.

(** C8.  The tracked file id starts as [2^32 - 1], and the table is the one
    handed to the thread.  When the first bundle carries another id, the
    first turn of the loop extracts that table, reports, asks for the ratio
    and resizes before it inserts the bundle, so that the table is then the
    handed-over one extracted, initialized and filled with the bundle.  When
    the first bundle carries [2^32 - 1] itself, its insertion is the only
    call of the first turn, made on the table as it was handed over.  In
    both cases the run goes on from there. *)
Theorem C8_sentinel (kmb : B) (q : list B) (s : State) :
  curTempFileId (spawned s) = 2 ^ 32 - 1 /\
  table (spawned s) = table s /\
  (getTempFileId kmb <> 2 ^ 32 - 1 ->
   exists thr s1 s2 l,
     let newSize :=
       newSize_for tempFiles devID (getTempFileId kmb) thr (spawned s) in
     iteration tempFiles devID kmb (spawned s) =
       Some (tt, s1, change_calls devID kmb thr newSize) /\
     table s1 = addBundle kmb (init newSize (extractAndClear (table s))) /\
     while_swapPop tempFiles devID q s1 = Some (tt, s2, l) /\
     hash_thread tempFiles devID (kmb :: q) s =
       Some (tt, finished s2,
             change_calls devID kmb thr newSize ++ l ++ [CExtractAndClear])) /\
  (getTempFileId kmb = 2 ^ 32 - 1 ->
   exists s1 s2 l,
     iteration tempFiles devID kmb (spawned s) =
       Some (tt, s1, [CAddBundle kmb]) /\
     table s1 = addBundle kmb (table s) /\
     while_swapPop tempFiles devID q s1 = Some (tt, s2, l) /\
     hash_thread tempFiles devID (kmb :: q) s =
       Some (tt, finished s2, CAddBundle kmb :: l ++ [CExtractAndClear])).
Proof.
  split; [reflexivity|]. split; [reflexivity|]. split; intros Hk.
  - destruct (iteration_cases kmb (spawned s))
      as [[Hs _] | [_ [thr [_ [_ Hi]]]]];
      [exfalso; apply Hk; rewrite <- Hs; reflexivity|].
    destruct (while_swapPop_total q
      (inserted kmb (resized tempFiles devID (getTempFileId kmb) thr (spawned s))))
      as [s2 [l2 Hw]].
    exists thr,
      (inserted kmb (resized tempFiles devID (getTempFileId kmb) thr (spawned s))),
      s2, l2. cbv zeta.
    repeat split; try assumption.
    rewrite hash_thread_eq, (while_swapPop_cons _ _ _ _ _ Hi), Hw.
    reflexivity.
  - pose proof (iteration_same kmb (spawned s) (eq_sym Hk)) as Hi.
    destruct (while_swapPop_total q (inserted kmb (spawned s))) as [s2 [l2 Hw]].
    exists (inserted kmb (spawned s)), s2, l2.
    repeat split; try assumption.
    rewrite hash_thread_eq, (while_swapPop_cons _ _ _ _ _ Hi), Hw. reflexivity.
Qed.

(** C9.  Let bundles [q] of the tracked file be inserted from state [s] and
    let the next bundle [kmb] belong to another file.  The insertions leave
    in [duration] the accumulated measured times of the [addBundle] calls.
    On the file change the clock is read, [extractAndClear] is called and
    takes its time, and the clock is read again; the throughput reported is
    taken over the accumulated value plus the difference of these two
    readings, that is, plus the time of the [extractAndClear] call. *)
Theorem C9_elapsed_includes_extraction (q : list B) (kmb : B) (s : State) :
  Forall (fun b => getTempFileId b = curTempFileId s) q ->
  curTempFileId s <> getTempFileId kmb ->
  exists s1 thr newSize s2,
    while_swapPop tempFiles devID q s = Some (tt, s1, map CAddBundle q) /\
    duration s1 = accumulate q (clock s) (duration s) /\
    iteration tempFiles devID kmb s1 =
      Some (tt, s2, change_calls devID kmb thr newSize) /\
    let start := fst (now (clock s1)) in
    let stop := fst (now (elapse CExtractAndClear (snd (now (clock s1))))) in
    throughput_of (window_processed s1)
      (add_s64 (accumulate q (clock s) (duration s))
               (duration_cast_ms (stop - start))) = Some thr.
Proof.
  intros Hq Hk.
  destruct (while_swapPop_same_file q s Hq) as [s1 [Hw [Hc [_ Hd]]]].
  destruct (iteration_cases kmb s1) as [[Hs _] | [_ [thr [Ht [_ Hi]]]]];
    [congruence|].
  exists s1, thr, (newSize_for tempFiles devID (getTempFileId kmb) thr s1),
    (inserted kmb (resized tempFiles devID (getTempFileId kmb) thr s1)).
  repeat split; try assumption.
  cbv zeta. unfold window_elapsed, measured in Ht. rewrite Hd in Ht. exact Ht.
Qed.

End ThreadFacts.

(** ** Construction and start *)

Section HasherTaskFacts.

Context {T B D : Type}.
Context `{KmerCountingHashTable T B} `{KmerDistributer D}.

Variable newTable : Z -> result T.

Lemma create_tables_ok (n : nat) : forall (i : Z) (d : D),
  (forall j, i <= j < i + Z.of_nat n -> exists t, newTable j = Ok t) ->
  exists ts d', create_tables newTable n i d = Ok (ts, d') /\ List.length ts = n.
Proof.
  induction n as [|n IH]; intros i d Hall.
  - exists [], d. split; reflexivity.
  - destruct (Hall i ltac:(lia)) as [t Ht].
    destruct (IH (i + 1) (updateCapacity true i (getMaxCapacity t) d))
      as [ts [d' [Hc Hl]]].
    { intros j Hj. apply Hall. lia. }
    exists (t :: ts), d'. simpl. rewrite Ht, Hc, Hl. split; reflexivity.
Qed.

Lemma create_tables_throw (n : nat) : forall (i k : Z) (d : D) (w : string),
  i <= k < i + Z.of_nat n ->
  newTable k = Throw w ->
  (forall j, i <= j < k -> exists t, newTable j = Ok t) ->
  create_tables newTable n i d = Throw w.
Proof.
  induction n as [|n IH]; intros i k d w Hk Hw Hbefore.
  - lia.
  - simpl. destruct (Z.eq_dec i k) as [-> | Hne].
    + rewrite Hw. reflexivity.
    + destruct (Hbefore i ltac:(lia)) as [t Ht]. rewrite Ht.
      rewrite (IH (i + 1) k _ w); try assumption; try lia.
      * reflexivity.
      * intros j Hj. apply Hbefore. lia.
Qed.

Lemma spawn_threads_no_gpu (n : nat) (devID : Z) :
  spawn_threads false n devID =
  match n with O => Ok [] | S _ => Throw no_gpu_support end.
Proof. destruct n; reflexivity. Qed.

(** C7, as the code has it.  The constructor checks no device count.
    Compiled without [GPU] it succeeds for every count, and [hash] then
    throws on the first turn of its loop, before any thread exists,
    whenever the count is positive, and returns normally when it is 0.
    Compiled with [GPU] the constructor fails exactly when the constructor
    of one of the tables throws, and passes that error on. *)
Theorem C7_no_device_check (numThreads : Z) (d : D) :
  HasherTask_new false newTable numThreads d =
    Ok (mkHasherTask numThreads [] 0 0 0, d) /\
  (forall h : HasherTask (T := T),
     0 < _numThreads h -> hash false h = Throw no_gpu_support) /\
  (forall h : HasherTask (T := T),
     _numThreads h <= 0 -> hash false h = Ok []) /\
  (forall k w,
     0 <= k < numThreads -> newTable k = Throw w ->
     (forall j, 0 <= j < k -> exists t, newTable j = Ok t) ->
     HasherTask_new true newTable numThreads d = Throw w) /\
  ((forall j, 0 <= j < numThreads -> exists t, newTable j = Ok t) ->
   exists ts d',
     HasherTask_new true newTable numThreads d =
       Ok (mkHasherTask numThreads ts 0 0 0, d') /\
     List.length ts = Z.to_nat numThreads).
Proof.
  split; [reflexivity|]. split; [|split; [|split]].
  - intros h Hn. unfold hash. rewrite spawn_threads_no_gpu.
    destruct (Z.to_nat (_numThreads h)) eqn:En; [lia|reflexivity].
  - intros h Hn. unfold hash. rewrite spawn_threads_no_gpu.
    destruct (Z.to_nat (_numThreads h)) eqn:En; [reflexivity|lia].
  - intros k w Hk Hw Hbefore. unfold HasherTask_new.
    rewrite (create_tables_throw _ 0 k d w); try assumption; try reflexivity.
    lia.
  - intros Hall. unfold HasherTask_new.
    destruct (create_tables_ok (Z.to_nat numThreads) 0 d) as [ts [d' [Hc Hl]]].
    { intros j Hj. apply Hall. lia. }
    exists ts, d'. rewrite Hc. split; [reflexivity|exact Hl].
Qed.

End HasherTaskFacts.

(** ** Further properties of the thread *)

Section ThreadObservations.

Context {T B D C F : Type}.
Context `{KMerBundle B} `{KmerCountingHashTable T B} `{KmerDistributer D}
        `{SteadyClock C} `{Elapse C B} `{TempFile F} `{Platform}.

Variable tempFiles : Z -> F.
Variable devID : Z.

Local Abbreviation State := (Thread (T := T) (D := D) (C := C)).

(** Induction on the calls of the loop: each bundle contributes either its
    insertion alone or the five calls of a file change. *)
Lemma while_swapPop_calls_ind (P : list B -> list (Call B) -> Prop) :
  P [] [] ->
  (forall kmb q l, P q l -> P (kmb :: q) (CAddBundle kmb :: l)) ->
  (forall kmb q l thr newSize,
     P q l -> P (kmb :: q) (change_calls devID kmb thr newSize ++ l)) ->
  forall (q : list B) (s s' : State) l,
    while_swapPop tempFiles devID q s = Some (tt, s', l) -> P q l.
Proof.
  intros Hnil Hsame Hchange q.
  induction q as [|kmb q IH]; intros s s' l Hw.
  - simpl in Hw. unfold ret in Hw. inversion Hw; subst. exact Hnil.
  - destruct (iteration_cases tempFiles devID kmb s)
      as [[_ Hi] | [_ [thr [_ [_ Hi]]]]];
      rewrite (while_swapPop_cons _ _ _ _ _ _ _ Hi) in Hw;
      match type of Hw with
      | match ?w with _ => _ end = _ =>
          destruct w as [[[[] s2] l2]|] eqn:Hq; [|discriminate]
      end;
      inversion Hw; subst.
    + apply Hsame. exact (IH _ _ _ Hq).
    + apply Hchange. exact (IH _ _ _ Hq).
Qed.

(** The run of a thread, split at the end of its loop. *)
Lemma hash_thread_run (q : list B) (s : State) :
  exists s1 l1,
    while_swapPop tempFiles devID q (spawned s) = Some (tt, s1, l1) /\
    hash_thread tempFiles devID q s =
      Some (tt, finished s1, l1 ++ [CExtractAndClear]).
Proof.
  destruct (while_swapPop_total tempFiles devID q (spawned s)) as [s1 [l1 Hw]].
  exists s1, l1. split; [exact Hw|]. rewrite hash_thread_eq, Hw. reflexivity.
Qed.

(** X1.  The insertions of a run are those of the bundles popped, each
    once and in the order of the queue. *)
Theorem X1_every_bundle_inserted_once (q : list B) (s : State) :
  filter is_add (calls (hash_thread tempFiles devID q s)) = map CAddBundle q.
Proof.
  destruct (hash_thread_run q s) as [s1 [l1 [Hw Hrun]]]. rewrite Hrun. simpl.
  rewrite filter_app, app_nil_r.
  apply (while_swapPop_calls_ind
           (fun q l => filter is_add l = map CAddBundle q))
    with (4 := Hw).
  - reflexivity.
  - intros kmb q' l IH. simpl. rewrite IH. reflexivity.
  - intros kmb q' l thr n IH. simpl. rewrite IH. reflexivity.
Qed.

(** X2.  The table is never initialized over contents that were not
    extracted: in every run, the table call just before an [init] is an
    [extractAndClear], and there are as many [init] calls as file
    changes. *)
Theorem X2_init_only_after_extraction (q : list B) (s : State) :
  resets_follow_extractions false (calls (hash_thread tempFiles devID q s)) = true /\
  count_calls is_init (calls (hash_thread tempFiles devID q s)) =
    file_changes uint32_max (map getTempFileId q).
Proof.
  destruct (hash_thread_run q s) as [s1 [l1 [Hw Hrun]]]. rewrite Hrun. simpl.
  split.
  - assert (Hl : forall b l',
        resets_follow_extractions b (l1 ++ l') =
        resets_follow_extractions (match q with [] => b | _ => false end) l').
    { apply (while_swapPop_calls_ind
        (fun q l => forall b l',
           resets_follow_extractions b (l ++ l') =
           resets_follow_extractions (match q with [] => b | _ => false end) l'))
        with (4 := Hw).
      - reflexivity.
      - intros kmb q' l IH b l'. simpl. rewrite IH. destruct q'; reflexivity.
      - intros kmb q' l thr n IH b l'. simpl. rewrite IH.
        destruct q'; reflexivity. }
    rewrite Hl. destruct q; reflexivity.
  - destruct (while_swapPop_calls _ _ _ _ _ _ Hw) as [He [_ [Hn _]]].
    rewrite count_calls_app, Hn, He. simpl. apply Nat.add_0_r.
Qed.

(** X3.  Every call a thread makes on the distributor carries the GPU flag
    and the id of its own device, and every ratio it requests is for the
    file of the bundle it inserts right after the resize. *)
Theorem X3_distributor_calls (q : list B) (s : State) :
  forallb (for_device devID) (calls (hash_thread tempFiles devID q s)) = true /\
  ratios_for_next_bundle (calls (hash_thread tempFiles devID q s)) = true.
Proof.
  destruct (hash_thread_run q s) as [s1 [l1 [Hw Hrun]]]. rewrite Hrun. simpl.
  assert (Hl : forallb (for_device devID) l1 = true /\
               forall l', ratios_for_next_bundle (l1 ++ l') =
                          ratios_for_next_bundle l').
  { apply (while_swapPop_calls_ind
      (fun (q : list B) l =>
         forallb (for_device devID) l = true /\
         forall l', ratios_for_next_bundle (l ++ l') = ratios_for_next_bundle l'))
      with (4 := Hw).
    - split; reflexivity.
    - intros kmb q' l [IH1 IH2]. split; [exact IH1|].
      intros l'. simpl. apply IH2.
    - intros kmb q' l thr n [IH1 IH2]. split.
      + simpl. rewrite Z.eqb_refl, IH1. reflexivity.
      + intros l'. simpl. rewrite Z.eqb_refl. simpl. apply IH2. }
  destruct Hl as [Hf Hr]. split.
  - rewrite forallb_app, Hf. reflexivity.
  - rewrite Hr. reflexivity.
Qed.

(** X5.  The statistics of the task are written once per thread, after the
    loop: each of the three counters grows, modulo 2^64, by the counter the
    table shows after the last extraction. *)
Theorem X5_statistics_written_at_end (q : list B) (s : State) :
  exists s1 l1 s',
    while_swapPop tempFiles devID q (spawned s) = Some (tt, s1, l1) /\
    (kMersNumber s1, uKMersNumber s1, btUKMersNumber s1) =
      (kMersNumber s, uKMersNumber s, btUKMersNumber s) /\
    hash_thread tempFiles devID q s = Some (tt, s', l1 ++ [CExtractAndClear]) /\
    table s' = extractAndClear (table s1) /\
    (kMersNumber s', uKMersNumber s', btUKMersNumber s') =
      add_statistics (table s')
        (kMersNumber s, uKMersNumber s, btUKMersNumber s).
Proof.
  destruct (hash_thread_run q s) as [s1 [l1 [Hw Hrun]]].
  destruct (while_swapPop_stats _ _ _ _ _ _ Hw) as [Hk [Hu Hb]].
  simpl in Hk, Hu, Hb.
  exists s1, l1, (finished s1). repeat split; try assumption.
  - rewrite Hk, Hu, Hb. reflexivity.
  - simpl. rewrite Hk, Hu, Hb. reflexivity.
Qed.

(** Bundles of the tracked file only pass through [addBundle]. *)
Lemma while_swapPop_same_file_table (q : list B) : forall s : State,
  Forall (fun b => getTempFileId b = curTempFileId s) q ->
  exists s' l,
    while_swapPop tempFiles devID q s = Some (tt, s', l) /\
    table s' = fold_left (fun t b => addBundle b t) q (table s) /\
    binKMers s' = binKMers s.
Proof.
  induction q as [|kmb q IH]; intros s Hq.
  - exists s, []. repeat split; reflexivity.
  - inversion Hq as [|? ? Hk Hq']; subst.
    pose proof (iteration_same tempFiles devID kmb s (eq_sym Hk)) as Hi.
    destruct (IH (inserted kmb s) Hq') as [s' [l [Hw [Ht Hb]]]].
    exists s', ([CAddBundle kmb] ++ l).
    rewrite (while_swapPop_cons _ _ _ _ _ _ _ Hi), Hw.
    repeat split; assumption.
Qed.

(** X7.  Suppose the k-mer counter of the table is left alone by
    [extractAndClear] and [init] and grows by the size of every bundle
    added.  Then the number of k-mers that enters the throughput of a
    window is, modulo 2^64, the total size of the bundles inserted since the
    last resize, the bundle that triggered the resize included. *)
Theorem X7_window_counts_its_bundles (size : B -> Z) (kmb : B) (q : list B) (s : State) :
  (forall t, getKMersNumber (extractAndClear t) = getKMersNumber t) ->
  (forall n t, getKMersNumber (init n t) = getKMersNumber t) ->
  (forall b t, getKMersNumber (addBundle b t) = add_u64 (getKMersNumber t) (size b)) ->
  curTempFileId s <> getTempFileId kmb ->
  Forall (fun b => getTempFileId b = getTempFileId kmb) q ->
  exists s' l,
    while_swapPop tempFiles devID (kmb :: q) s = Some (tt, s', l) /\
    window_processed s' = to_u64 (fold_right Z.add 0 (map size (kmb :: q))).
Proof.
  intros Hext Hinit Hadd Hc Hq.
  destruct (iteration_cases tempFiles devID kmb s)
    as [[Hs _] | [_ [thr [_ [_ Hi]]]]]; [contradiction|].
  set (s1 := inserted kmb (resized tempFiles devID (getTempFileId kmb) thr s)) in *.
  destruct (while_swapPop_same_file_table q s1 Hq) as [s' [l [Hw [Ht Hb]]]].
  exists s', (change_calls devID kmb thr
                (newSize_for tempFiles devID (getTempFileId kmb) thr s) ++ l).
  split.
  { rewrite (while_swapPop_cons _ _ _ _ _ _ _ Hi), Hw. reflexivity. }
  unfold window_processed. rewrite Hext, Ht, Hb.
  assert (Hfold : forall (q' : list B) (t : T),
            to_u64 (getKMersNumber (fold_left (fun t b => addBundle b t) q' t)) =
            to_u64 (getKMersNumber t + fold_right Z.add 0 (map size q'))).
  { induction q' as [|b q' IHq]; intros t; simpl.
    - rewrite Z.add_0_r. reflexivity.
    - rewrite IHq, Hadd. unfold add_u64, to_u64.
      rewrite Zplus_mod_idemp_l. f_equal. lia. }
  unfold sub_u64, to_u64 in *. rewrite <- Zminus_mod_idemp_l, Hfold.
  rewrite Zminus_mod_idemp_l. subst s1. simpl.
  rewrite Hadd. unfold add_u64, to_u64.
  rewrite <- Zminus_mod_idemp_l, Zplus_mod_idemp_l, Zminus_mod_idemp_l.
  f_equal. lia.
Qed.

(** X13.  A queue whose bundles all belong to one file, not numbered
    [2^32 - 1]: one extraction, report, ratio request and resize before the
    first bundle, then nothing but insertions, then the last extraction. *)
Theorem X13_single_file_run (kmb : B) (q : list B) (s : State) :
  getTempFileId kmb <> uint32_max ->
  Forall (fun b => getTempFileId b = getTempFileId kmb) q ->
  exists thr newSize s',
    hash_thread tempFiles devID (kmb :: q) s =
      Some (tt, s', change_calls devID kmb thr newSize ++ map CAddBundle q ++
                    [CExtractAndClear]).
Proof.
  intros Hk Hq.
  destruct (while_swapPop_change_then_same tempFiles devID kmb q (spawned s))
    as [thr [n [s1 [Hw _]]]].
  { simpl. congruence. }
  { exact Hq. }
  exists thr, n, (finished s1).
  rewrite hash_thread_eq, Hw, <- app_assoc. reflexivity.
Qed.

(** X14.  The first report of a run closes a window in which nothing was
    inserted: when the first bundle does not carry the id [2^32 - 1] and the
    counter of the table handed to the thread is 0 after extraction, the
    throughput reported first is +0, whatever the clock shows. *)
Theorem X14_first_report_is_zero (kmb : B) (q : list B) (s : State) :
  getTempFileId kmb <> uint32_max ->
  getKMersNumber (extractAndClear (table s)) = 0 ->
  exists s' l,
    hash_thread tempFiles devID (kmb :: q) s =
      Some (tt, s',
            change_calls devID kmb zero
              (newSize_for tempFiles devID (getTempFileId kmb) zero (spawned s))
            ++ l).
Proof.
  intros Hk Hz.
  assert (Ht : throughput_of (window_processed (spawned s))
                             (window_elapsed (spawned s)) = Some zero).
  { unfold window_processed. simpl table. simpl binKMers. rewrite Hz.
    destruct (Z.eq_dec (window_elapsed (spawned s)) 0) as [-> | Hnz].
    - reflexivity.
    - rewrite throughput_of_nonzero; [reflexivity| |exact Hnz].
      apply to_s64_range. }
  assert (Hc : curTempFileId (spawned s) <> getTempFileId kmb).
  { simpl. congruence. }
  pose proof (iteration_change tempFiles devID kmb (spawned s) zero Hc Ht) as Hi.
  destruct (while_swapPop_total tempFiles devID q
    (inserted kmb (resized tempFiles devID (getTempFileId kmb) zero (spawned s))))
    as [s2 [l2 Hw]].
  exists (finished s2), (l2 ++ [CExtractAndClear]).
  rewrite hash_thread_eq, (while_swapPop_cons _ _ _ _ _ _ _ Hi), Hw.
  unfold change_calls. rewrite <- app_assoc. reflexivity.
Qed.

End ThreadObservations.

(** ** Where the clock is read *)

Section ClockRecord.

Context {T B D F : Type}.
Context `{KMerBundle B} `{KmerCountingHashTable T B} `{KmerDistributer D}
        `{TempFile F} `{Platform}.

Variable tempFiles : Z -> F.
Variable devID : Z.

Local Abbreviation Recorded := (Thread (T := T) (D := D) (C := list (Tick B))).

(** The record of the loop: every call it makes, bracketed or not. *)
Lemma while_swapPop_record (q : list B) : forall (s s' : Recorded) l,
  while_swapPop tempFiles devID q s = Some (tt, s', l) ->
  clock s' = clock s ++ flat_map bracketed l.
Proof.
  induction q as [|kmb q IH]; intros s s' l Hw.
  - simpl in Hw. unfold ret in Hw. inversion Hw; subst.
    simpl. rewrite app_nil_r. reflexivity.
  - destruct (iteration_cases tempFiles devID kmb s)
      as [[_ Hi] | [_ [thr [_ [_ Hi]]]]];
      rewrite (while_swapPop_cons _ _ _ _ _ _ _ Hi) in Hw;
      match type of Hw with
      | match ?w with _ => _ end = _ =>
          destruct w as [[[[] s2] l2]|] eqn:Hq; [|discriminate]
      end;
      inversion Hw; subst; rewrite (IH _ _ _ Hq); simpl;
      unfold after_measure; simpl; rewrite <- !app_assoc; reflexivity.

Qed.

(** X4.  On the clock that records what happens to it, the record a run
    adds is: for every call of the loop in order, the call between two
    readings when it is an [addBundle] or an [extractAndClear], the call
    alone otherwise; and then the last [extractAndClear] alone.  So the
    clock is read just before and just after every insertion and every
    extraction of a file change, nowhere else, and the extraction made
    after the queue is closed is not timed. *)
Theorem X4_clock_readings (q : list B) (s : Recorded) :
  exists s1 l1 s',
    while_swapPop tempFiles devID q (spawned s) = Some (tt, s1, l1) /\
    hash_thread tempFiles devID q s = Some (tt, s', l1 ++ [CExtractAndClear]) /\
    clock s' =
      clock s ++ flat_map bracketed l1 ++ [Passed CExtractAndClear].
Proof.
  destruct (while_swapPop_total tempFiles devID q (spawned s)) as [s1 [l1 Hw]].
  exists s1, l1, (finished s1). split; [exact Hw|]. split.
  - rewrite hash_thread_eq, Hw. reflexivity.
  - simpl. rewrite (while_swapPop_record _ _ _ _ Hw). simpl.
    rewrite <- app_assoc. reflexivity.
Qed.

End ClockRecord.

(** ** Further properties of the throughput expression *)

(** X8.  A negative count of microseconds is divided by as the unsigned
    number it converts to, which is at least 2^63: the throughput reported
    for it is 0 when fewer k-mers than that were processed, and 1
    otherwise. *)
Theorem X8_negative_duration (p d : Z) :
  is_u64 p -> - two63 <= d < 0 ->
  throughput_of p d = Some (of_u64 (if p <? d + two64 then 0 else 1)).
Proof.
  unfold is_u64, two63, two64. intros Hp Hd.
  rewrite throughput_of_nonzero; [|unfold is_s64, two63; lia|lia].
  assert (Hu : to_u64 d = d + 2 ^ 64).
  { unfold to_u64, two64. symmetry. apply Z.mod_unique with (q := -1); lia. }
  rewrite Hu. f_equal. f_equal.
  destruct (Z.ltb_spec p (d + 2 ^ 64)) as [Hlt | Hge].
  - apply Z.div_small. lia.
  - symmetry. apply Z.div_unique with (r := p - (d + 2 ^ 64)); lia.
Qed.

(** ** Further properties of the task *)

Lemma add_u64_swap (k a b : Z) :
  add_u64 (add_u64 k a) b = add_u64 (add_u64 k b) a.
Proof.
  unfold add_u64, to_u64. rewrite !Zplus_mod_idemp_l. f_equal. lia.
Qed.

Section TaskObservations.

Context {T B D : Type}.
Context `{KmerCountingHashTable T B} `{KmerDistributer D}.

Variable newTable : Z -> result T.

Lemma add_statistics_comm (t1 t2 : T) (st : Z * Z * Z) :
  add_statistics t1 (add_statistics t2 st) =
  add_statistics t2 (add_statistics t1 st).
Proof.
  destruct st as [[k u] bt]. unfold add_statistics.
  rewrite (add_u64_swap k (getKMersNumber t2) (getKMersNumber t1)).
  rewrite (add_u64_swap u (getUKMersNumber t2) (getUKMersNumber t1)).
  rewrite (add_u64_swap bt (getUKMersNumberBelowThreshold t2)
                           (getUKMersNumberBelowThreshold t1)).
  reflexivity.
Qed.

(** X6.  The statistics do not depend on the order in which the threads
    finish: the additions of any two orders of the same tables give the same
    three counters. *)
Theorem X6_statistics_order_independent (ts ts' : list T) (st : Z * Z * Z) :
  Permutation ts ts' -> statistics_after ts st = statistics_after ts' st.
Proof.
  intros Hp. revert st. unfold statistics_after.
  induction Hp as [|t l l' _ IH|t1 t2 l|l l' l'' _ IH1 _ IH2]; intros st; simpl.
  - reflexivity.
  - apply IH.
  - rewrite add_statistics_comm. reflexivity.
  - rewrite IH1. apply IH2.
Qed.

Lemma create_tables_result (n : nat) : forall (i : Z) (d : D) ts d',
  create_tables newTable n i d = Ok (ts, d') ->
  List.length ts = n /\
  (forall k t, nth_error ts k = Some t -> newTable (i + Z.of_nat k) = Ok t) /\
  d' = capacities_reported i ts d.
Proof.
  induction n as [|n IH]; intros i d ts d' Hc; simpl in Hc.
  - inversion Hc; subst. repeat split. intros [|k] t Hk; discriminate Hk.
  - destruct (newTable i) as [t0|w] eqn:Ht; [|discriminate].
    destruct (create_tables newTable n (i + 1)
                (updateCapacity true i (getMaxCapacity t0) d))
      as [[ts1 d1]|w] eqn:Hrec; [|discriminate].
    inversion Hc; subst. destruct (IH _ _ _ _ Hrec) as [Hl [Hn Hd]].
    repeat split.
    + simpl. rewrite Hl. reflexivity.
    + intros [|k] t Hk; simpl in Hk.
      * inversion Hk; subst. rewrite Z.add_0_r. exact Ht.
      * rewrite <- (Hn k t Hk). f_equal. lia.
    + rewrite Hd. unfold capacities_reported. simpl.
      rewrite Z.add_0_r. f_equal. f_equal.
      rewrite <- seq_shift, map_map. apply map_ext. intros k. lia.
Qed.

(** X9.  With [GPU], a construction that succeeds has created the table of
    every device [0 .. numThreads-1], in this order, and has reported to the
    distributor the maximal capacity of each, once, as a GPU capacity under
    the index of the device; the statistics start at 0. *)
Theorem X9_constructor_reports_capacities (numThreads : Z) (d : D) h d' :
  HasherTask_new true newTable numThreads d = Ok (h, d') ->
  _numThreads h = numThreads /\
  List.length (tables h) = Z.to_nat numThreads /\
  (forall k t, nth_error (tables h) k = Some t -> newTable (Z.of_nat k) = Ok t) /\
  d' = capacities_reported 0 (tables h) d /\
  (_kMersNumber h, _uKMersNumber h, _btUKMersNumber h) = (0, 0, 0).
Proof.
  unfold HasherTask_new. intros Hn.
  destruct (create_tables newTable (Z.to_nat numThreads) 0 d)
    as [[ts d1]|w] eqn:Hc; [|discriminate].
  inversion Hn; subst. simpl.
  destruct (create_tables_result _ _ _ _ _ Hc) as [Hl [Hk Hd]].
  repeat split; try assumption.
Qed.

Lemma spawn_threads_gpu (n : nat) : forall devID : Z,
  spawn_threads true n devID = Ok (map (fun k => devID + Z.of_nat k) (seq 0 n)).
Proof.
  induction n as [|n IH]; intros devID; simpl.
  - reflexivity.
  - rewrite IH, Z.add_0_r. f_equal. f_equal.
    rewrite <- seq_shift, map_map. apply map_ext. intros k. lia.
Qed.

(** X10.  With [GPU], [hash] does not throw and spawns one thread for each
    of the devices [0 .. numThreads-1], in this order. *)
Theorem X10_hash_spawns_every_device (h : HasherTask (T := T)) :
  hash true h = Ok (device_ids (Z.to_nat (_numThreads h))).
Proof.
  unfold hash, device_ids. rewrite spawn_threads_gpu.
  f_equal.
Qed.

End TaskObservations.

(** ** The life of the threads *)

Lemma store_at_length {A} (pre : list A) (x y : A) (rest : list A) :
  store (List.length pre) x (pre ++ y :: rest) = pre ++ x :: rest.
Proof. induction pre as [|p pre IH]; simpl; [|rewrite IH]; reflexivity. Qed.

Lemma nth_error_store_other {A} (x : A) : forall (l : list A) (i j : nat),
  i <> j -> nth_error (store j x l) i = nth_error l i.
Proof.
  induction l as [|y l IH]; intros i j Hij.
  - destruct j; reflexivity.
  - destruct j as [|j]; destruct i as [|i]; simpl; try reflexivity;
      try congruence.
    apply IH. congruence.
Qed.

Lemma nth_error_store_same {A} (x : A) : forall (l : list A) (i : nat) (y : A),
  nth_error l i = Some y -> nth_error (store i x l) i = Some x.
Proof.
  induction l as [|z l IH]; intros i y Hn; destruct i as [|i]; simpl in *;
    try discriminate; try reflexivity.
  exact (IH _ _ Hn).
Qed.

(** Storing the threads of the devices [length pre], [length pre + 1], ...
    fills the rest of the array. *)
Lemma store_running (rest : list Slot) : forall pre : list Slot,
  fold_left (fun sl d => store (Z.to_nat d) (Running d) sl)
    (map (fun k => Z.of_nat (List.length pre) + Z.of_nat k)
         (seq 0 (List.length rest)))
    (pre ++ rest) =
  pre ++ map Running
           (map (fun k => Z.of_nat (List.length pre) + Z.of_nat k)
                (seq 0 (List.length rest))).
Proof.
  induction rest as [|y rest IH]; intros pre.
  - reflexivity.
  - simpl. rewrite Z.add_0_r, Nat2Z.id, store_at_length.
    change (pre ++ Running (Z.of_nat (List.length pre)) :: rest)
      with (pre ++ [Running (Z.of_nat (List.length pre))] ++ rest).
    rewrite app_assoc.
    assert (Hids :
      map (fun k => Z.of_nat (List.length pre) + Z.of_nat k)
          (seq 1 (List.length rest)) =
      map (fun k => Z.of_nat (List.length (pre ++ [Running (Z.of_nat (List.length pre))]))
                    + Z.of_nat k)
          (seq 0 (List.length rest))).
    { rewrite <- seq_shift, map_map. apply map_ext. intros k.
      rewrite length_app. simpl. lia. }
    rewrite Hids, IH, <- app_assoc. reflexivity.
Qed.

Lemma join_loop_running (ds : list Z) : forall pre : list Slot,
  join_loop (List.length ds) (List.length pre) (pre ++ map Running ds) =
  Some (ds, pre ++ repeat Dangling (List.length ds)).
Proof.
  induction ds as [|d ds IH]; intros pre; simpl.
  - rewrite !app_nil_r. reflexivity.
  - rewrite nth_error_app2, Nat.sub_diag by lia. simpl.
    rewrite store_at_length.
    change (pre ++ Dangling :: map Running ds)
      with (pre ++ [Dangling] ++ map Running ds).
    rewrite app_assoc.
    replace (S (List.length pre)) with (List.length (pre ++ [Dangling]))
      by (rewrite length_app; simpl; lia).
    rewrite IH, <- app_assoc. reflexivity.
Qed.

(** What [join] leaves below the index it started from. *)
Lemma join_loop_below (n : nat) : forall (j : nat) (th th' : list Slot) ds,
  join_loop n j th = Some (ds, th') ->
  forall i, (i < j)%nat -> nth_error th' i = nth_error th i.
Proof.
  induction n as [|n IH]; intros j th th' ds Hj i Hi; simpl in Hj.
  - inversion Hj; subst. reflexivity.
  - destruct (nth_error th j) as [[| |d|]|] eqn:Hn; try discriminate.
    destruct (join_loop n (S j) (store j Dangling th)) as [[ds1 th1]|] eqn:Hrec;
      [|discriminate].
    inversion Hj; subst.
    rewrite (IH _ _ _ _ Hrec i ltac:(lia)).
    apply nth_error_store_other. lia.
Qed.

(** X11.  With [GPU], the order constructor, [hash], [join] works: [hash]
    stores a thread for every device in the array the constructor filled
    with null pointers, and [join] then joins the threads of the devices
    [0 .. numThreads-1] in this order and deletes each. *)
Theorem X11_hash_then_join (numThreads : Z) :
  hash_threads true numThreads (new_threads true numThreads) =
    Ok (map Running (device_ids (Z.to_nat numThreads))) /\
  join numThreads (map Running (device_ids (Z.to_nat numThreads))) =
    Some (device_ids (Z.to_nat numThreads),
          repeat Dangling (Z.to_nat numThreads)).
Proof.
  unfold hash_threads, new_threads, join, device_ids. split.
  - rewrite spawn_threads_gpu.
    pose proof (store_running (repeat Nullptr (Z.to_nat numThreads)) []) as Hs.
    rewrite repeat_length in Hs. simpl in Hs. simpl.
    rewrite Hs. reflexivity.
  - pose proof (join_loop_running (map Z.of_nat (seq 0 (Z.to_nat numThreads))) [])
      as Hj.
    rewrite length_map, length_seq in Hj. exact Hj.
Qed.

(** X12.  [join] dereferences every element of [_threads] without a check.
    When at least one device was asked for, it is undefined on the array as
    the constructor leaves it, with or without [GPU], and again on the array
    a completed [join] leaves; without [GPU], [hash] throws and leaves the
    array as it was.  With no device, [join] does nothing. *)
Theorem X12_join_needs_running_threads (GPU : bool) (numThreads : Z) :
  (0 < numThreads -> join numThreads (new_threads GPU numThreads) = None) /\
  (0 < numThreads ->
   forall th ds th', join numThreads th = Some (ds, th') ->
                     join numThreads th' = None) /\
  (0 < numThreads ->
   forall th, hash_threads false numThreads th = Throw no_gpu_support) /\
  (numThreads <= 0 -> forall th, join numThreads th = Some ([], th)).
Proof.
  unfold join, new_threads, hash_threads. repeat split.
  - intros Hn. destruct (Z.to_nat numThreads) as [|n] eqn:En; [lia|].
    destruct GPU; reflexivity.
  - intros Hn th ds th' Hj.
    destruct (Z.to_nat numThreads) as [|n] eqn:En; [lia|].
    cbn [join_loop] in Hj. cbn [join_loop].
    destruct (nth_error th 0) as [[| |d|]|] eqn:Hth; try discriminate.
    destruct (join_loop n 1 (store 0 Dangling th)) as [[ds1 th1]|] eqn:Hrec;
      [|discriminate].
    inversion Hj; subst.
    rewrite (join_loop_below _ _ _ _ _ Hrec 0%nat ltac:(lia)).
    rewrite (nth_error_store_same _ _ _ _ Hth). reflexivity.
  - intros Hn th. rewrite spawn_threads_no_gpu.
    destruct (Z.to_nat numThreads) as [|n] eqn:En; [lia|reflexivity].
  - intros Hn th. destruct (Z.to_nat numThreads) as [|n] eqn:En; [|lia].
    reflexivity.
Qed.

(** ** Concrete runs on the reference collaborators *)

Example double_0_9_value : double_0_9 = S754_finite false 8106479329266893 (-53).
Proof. vm_compute. reflexivity. Qed.

Example scenarioA_calls :
  calls (Sim.run 0 Sim.scenarioA) =
  [CExtractAndClear; CUpdateThroughput true 0 zero; CGetSplitRatio true 0 0;
   CInit 1000;
   CAddBundle (Sim.mkBundle 0 [1; 2]); CAddBundle (Sim.mkBundle 0 [2; 3]);
   CAddBundle (Sim.mkBundle 0 [1]);
   CExtractAndClear; CUpdateThroughput true 0 zero; CGetSplitRatio true 0 1;
   CInit 2000;
   CAddBundle (Sim.mkBundle 1 [4; 4]); CAddBundle (Sim.mkBundle 1 [5]);
   CExtractAndClear].
Proof. vm_compute. reflexivity. Qed.

Lemma bundle_file_id (f : Z) (k : list Z) :
  getTempFileId (Sim.mkBundle f k) = f.
Proof. reflexivity. Qed.

Lemma C1_file_boundary_order_witness :
  getTempFileId (Sim.mkBundle Sim.fileB [4; 4]) <>
    tracked uint32_max (map getTempFileId (firstn 3 Sim.scenarioA)) /\
  exists s1 l1 thr newSize s2 s3 l2,
    while_swapPop Sim.tempFiles 0 (firstn 3 Sim.scenarioA) (spawned Sim.start)
      = Some (tt, s1, l1) /\
    iteration Sim.tempFiles 0 (Sim.mkBundle Sim.fileB [4; 4]) s1 =
      Some (tt, s2, change_calls 0 (Sim.mkBundle Sim.fileB [4; 4]) thr newSize) /\
    table s2 =
      addBundle (Sim.mkBundle Sim.fileB [4; 4])
                (init newSize (extractAndClear (table s1))) /\
    hash_thread Sim.tempFiles 0
      (firstn 3 Sim.scenarioA ++ Sim.mkBundle Sim.fileB [4; 4] :: [Sim.mkBundle Sim.fileB [5]])
      Sim.start =
      Some (tt, finished s3,
            l1 ++ change_calls 0 (Sim.mkBundle Sim.fileB [4; 4]) thr newSize ++
            l2 ++ [CExtractAndClear]).
Proof.
  assert (Hk : getTempFileId (Sim.mkBundle Sim.fileB [4; 4]) <>
               tracked uint32_max (map getTempFileId (firstn 3 Sim.scenarioA))).
  { vm_compute. discriminate. }
  split; [exact Hk|].
  destruct (C1_file_boundary_order Sim.tempFiles 0 (firstn 3 Sim.scenarioA)
              [Sim.mkBundle Sim.fileB [5]] (Sim.mkBundle Sim.fileB [4; 4])
              Sim.start Hk)
    as [s1 [l1 [thr [n [s2 [s3 [l2 [Hw1 [_ [Hi [Ht [_ [Hrun _]]]]]]]]]]]]].
  exists s1, l1, thr, n, s2, s3, l2.
  split; [exact Hw1|]. split; [exact Hi|]. split; [exact Ht|exact Hrun].
Defined.

(** Scenario A run on the code: three extractions, not two. *)
Lemma C2_scenarioA_not_two_extractions :
  count_calls is_extract (calls (Sim.run 0 Sim.scenarioA)) = 3%nat /\
  count_calls is_extract (calls (Sim.run 0 Sim.scenarioA)) <> 2%nat.
Proof. split; [vm_compute; reflexivity | vm_compute; discriminate]. Qed.

Lemma C2_scenarioA_three_extractions_witness :
  Sim.fileA <> Sim.fileB /\ Sim.fileA <> uint32_max /\
  count_calls is_extract (calls (hash_thread Sim.tempFiles 0 Sim.scenarioA Sim.start))
    = 3%nat.
Proof.
  assert (Hab : Sim.fileA <> Sim.fileB) by (vm_compute; discriminate).
  assert (Hs : Sim.fileA <> uint32_max) by (vm_compute; discriminate).
  split; [exact Hab|]. split; [exact Hs|].
  destruct (C2_scenarioA_three_extractions Sim.tempFiles 0
              (Sim.mkBundle Sim.fileA [1; 2]) (Sim.mkBundle Sim.fileA [2; 3])
              (Sim.mkBundle Sim.fileA [1]) (Sim.mkBundle Sim.fileB [4; 4])
              (Sim.mkBundle Sim.fileB [5]) Sim.fileA Sim.fileB Sim.start
              (bundle_file_id _ _) (bundle_file_id _ _) (bundle_file_id _ _)
              (bundle_file_id _ _) (bundle_file_id _ _) Hab Hs)
    as [thrA [sizeA [thrB [sizeB [s' [_ Hcount]]]]]].
  exact Hcount.
Defined.

(** A queue closed at once: the thread extracts once and reports nothing. *)
Lemma C3_final_extraction_not_reported :
  calls (Sim.run 0 []) = [CExtractAndClear] /\
  count_calls is_extract (calls (Sim.run 0 [])) = 1%nat /\
  count_calls is_update (calls (Sim.run 0 [])) = 0%nat /\
  count_calls is_update (calls (Sim.run 0 [])) <>
    count_calls is_extract (calls (Sim.run 0 [])).
Proof. repeat split; try (vm_compute; reflexivity). vm_compute. discriminate. Qed.

Lemma C4_resize_witness :
  curTempFileId (spawned Sim.start) <> getTempFileId (Sim.mkBundle 7 [1; 2]) /\
  trunc (SFmul prec emax (of_u64 8000) (of_u64 1)) = Some 8000 /\
  0 <= 8000 < two64 /\
  exists thr,
    file_change Sim.tempFiles 0 (Sim.mkBundle 7 [1; 2]) (spawned Sim.start) =
      Some (tt, resized Sim.tempFiles 0 7 thr (spawned Sim.start),
            [CExtractAndClear; CUpdateThroughput true 0 thr;
             CGetSplitRatio true 0 7; CInit 8000]) /\
    duration (resized Sim.tempFiles 0 7 thr (spawned Sim.start)) = 0 /\
    curTempFileId (resized Sim.tempFiles 0 7 thr (spawned Sim.start)) = 7.
Proof.
  assert (Hc : curTempFileId (spawned Sim.start)
               <> getTempFileId (Sim.mkBundle 7 [1; 2])).
  { vm_compute. discriminate. }
  assert (Hp : trunc (SFmul prec emax (of_u64 8000) (of_u64 1)) = Some 8000).
  { vm_compute. reflexivity. }
  assert (Hr : 0 <= 8000 < two64) by (unfold two64; lia).
  split; [exact Hc|]. split; [exact Hp|]. split; [exact Hr|].
  destruct (C4_resize Sim.tempFiles 0 (Sim.mkBundle 7 [1; 2]) (spawned Sim.start) Hc)
    as [thr [Hf [Hn [_ [_ [Hd [Hi _]]]]]]].
  exists thr. split; [|split; [exact Hd | exact Hi]].
  rewrite Hf. rewrite (Hn 8000 Hp Hr). reflexivity.
Defined.

Lemma C5_throughput_never_faults_witness :
  window_elapsed (spawned Sim.start_frozen) = 0 /\
  exists thr,
    throughput_of (window_processed (spawned Sim.start_frozen))
                  (window_elapsed (spawned Sim.start_frozen)) = Some thr /\
    nonneg_finite thr = true /\
    thr = zero.
Proof.
  assert (Hz : window_elapsed (spawned Sim.start_frozen) = 0) by reflexivity.
  split; [exact Hz|].
  destruct (C5_throughput_never_faults Sim.tempFiles 0 (Sim.mkBundle 0 [1])
              (spawned Sim.start_frozen)) as [thr [Ht [_ [Hn Hzero]]]].
  exists thr. split; [exact Ht|]. split; [exact Hn | exact (Hzero Hz)].
Defined.

(** Without [GPU], asking for one device where none exists: the constructor
    succeeds, although every table constructor would fail. *)
Lemma C7_constructor_succeeds_without_hardware :
  HasherTask_new (D := Sim.Distributor) false Sim.no_device 1 [] =
    Ok (mkHasherTask 1 [] 0 0 0, []) /\
  ~ (exists w, HasherTask_new (D := Sim.Distributor) false Sim.no_device 1 [] = Throw w).
Proof.
  split; [reflexivity|]. intros [w Hw]. discriminate Hw.
Qed.

Lemma C7_no_device_check_witness :
  0 < _numThreads (mkHasherTask (T := Sim.Table) 1 [] 0 0 0) /\
  hash false (mkHasherTask (T := Sim.Table) 1 [] 0 0 0) = Throw no_gpu_support /\
  _numThreads (mkHasherTask (T := Sim.Table) 0 [] 0 0 0) <= 0 /\
  hash false (mkHasherTask (T := Sim.Table) 0 [] 0 0 0) = Ok [] /\
  HasherTask_new (D := Sim.Distributor) true Sim.no_device 1 [] = Throw "no CUDA device".
Proof.
  pose proof (C7_no_device_check (D := Sim.Distributor) Sim.no_device 1 [])
    as [_ [Hthrow [Hok [Hgpu _]]]].
  assert (H1 : 0 < _numThreads (mkHasherTask (T := Sim.Table) 1 [] 0 0 0))
    by (simpl; lia).
  assert (H0 : _numThreads (mkHasherTask (T := Sim.Table) 0 [] 0 0 0) <= 0)
    by (simpl; lia).
  split; [exact H1|]. split; [exact (Hthrow _ H1)|].
  split; [exact H0|]. split; [exact (Hok _ H0)|].
  apply (Hgpu 0 "no CUDA device"%string).
  - lia.
  - reflexivity.
  - intros j Hj. lia.
Defined.

Lemma C8_sentinel_witness :
  getTempFileId (Sim.mkBundle 0 [1; 2]) <> 2 ^ 32 - 1 /\
  (exists thr (s1 s2 : Thread (T := Sim.Table) (D := Sim.Distributor) (C := Z)) l,
     table s1 = Sim.mkTable 1000 [1; 2] 2 /\
     hash_thread Sim.tempFiles 0 [Sim.mkBundle 0 [1; 2]] Sim.start =
       Some (tt, finished s2,
             change_calls 0 (Sim.mkBundle 0 [1; 2]) thr
               (newSize_for Sim.tempFiles 0 0 thr (spawned Sim.start)) ++
             l ++ [CExtractAndClear])) /\
  getTempFileId (Sim.mkBundle (2 ^ 32 - 1) [1; 2]) = 2 ^ 32 - 1 /\
  (exists (s1 s2 : Thread (T := Sim.Table) (D := Sim.Distributor) (C := Z)) l,
     table s1 = Sim.mkTable 0 [1; 2] 2 /\
     hash_thread Sim.tempFiles 0 [Sim.mkBundle (2 ^ 32 - 1) [1; 2]] Sim.start =
       Some (tt, finished s2,
             CAddBundle (Sim.mkBundle (2 ^ 32 - 1) [1; 2]) :: l ++
             [CExtractAndClear])).
Proof.
  assert (Hne : getTempFileId (Sim.mkBundle 0 [1; 2]) <> 2 ^ 32 - 1).
  { vm_compute. discriminate. }
  assert (Heq : getTempFileId (Sim.mkBundle (2 ^ 32 - 1) [1; 2]) = 2 ^ 32 - 1).
  { reflexivity. }
  split; [exact Hne|]. split.
  - destruct (C8_sentinel Sim.tempFiles 0 (Sim.mkBundle 0 [1; 2]) [] Sim.start)
      as [_ [_ [Hchange _]]].
    destruct (Hchange Hne) as [thr [s1 [s2 [l [_ [Ht [_ Hrun]]]]]]].
    exists thr, s1, s2, l. split; [|exact Hrun].
    rewrite Ht. vm_compute. reflexivity.
  - split; [exact Heq|].
    destruct (C8_sentinel Sim.tempFiles 0 (Sim.mkBundle (2 ^ 32 - 1) [1; 2]) []
                Sim.start) as [_ [_ [_ Hsame]]].
    destruct (Hsame Heq) as [s1 [s2 [l [_ [Ht [_ Hrun]]]]]].
    exists s1, s2, l. split; [|exact Hrun].
    rewrite Ht. vm_compute. reflexivity.
Defined.

(** Twelve k-mers inserted in 3 microseconds and extracted in 3 more: the
    report is 12 / 6 = 2, not the 12 / 3 = 4 of the insertion time alone. *)
Lemma C9_elapsed_includes_extraction_witness :
  Forall (fun b => getTempFileId b = curTempFileId Sim.start) [Sim.twelve] /\
  curTempFileId Sim.start <> getTempFileId (Sim.mkBundle 1 [4]) /\
  exists thr,
    In (CUpdateThroughput true 0 thr)
       (calls (while_swapPop Sim.tempFiles 0 [Sim.twelve; Sim.mkBundle 1 [4]] Sim.start)) /\
    accumulate [Sim.twelve] (clock Sim.start) (duration Sim.start) = 3 /\
    measured CExtractAndClear (clock (inserted Sim.twelve Sim.start)) = 3 /\
    thr = of_u64 (12 / (3 + 3)) /\
    thr <> of_u64 (12 / 3).
Proof.
  assert (Hq : Forall (fun b => getTempFileId b = curTempFileId Sim.start)
                      [Sim.twelve]).
  { repeat constructor. }
  assert (Hk : curTempFileId Sim.start <> getTempFileId (Sim.mkBundle 1 [4])).
  { vm_compute. discriminate. }
  split; [exact Hq|]. split; [exact Hk|].
  destruct (C9_elapsed_includes_extraction Sim.tempFiles 0 [Sim.twelve]
              (Sim.mkBundle 1 [4]) Sim.start Hq Hk)
    as [s1 [thr [newSize [s2 [Hw [Hd [Hi Ht]]]]]]].
  exists thr.
  assert (Hs1 : s1 = inserted Sim.twelve Sim.start).
  { vm_compute in Hw. inversion Hw. reflexivity. }
  subst s1. vm_compute in Ht. inversion Ht as [Hthr].
  repeat split.
  - vm_compute. right. right. left. reflexivity.
  - discriminate.
Defined.

Lemma C10_throughput_floor_witness :
  0 < window_elapsed (inserted Sim.twelve Sim.start) /\
  window_processed (inserted Sim.twelve Sim.start) / window_elapsed (inserted Sim.twelve Sim.start) = 2 /\
  file_change Sim.tempFiles 0 (Sim.mkBundle 1 [4]) (inserted Sim.twelve Sim.start) =
    Some (tt, resized Sim.tempFiles 0 1 (of_u64 2) (inserted Sim.twelve Sim.start),
          [CExtractAndClear; CUpdateThroughput true 0 (of_u64 2);
           CGetSplitRatio true 0 1; CInit 2000]) /\
  0 < window_elapsed Sim.start /\
  window_processed Sim.start < window_elapsed Sim.start /\
  of_u64 (window_processed Sim.start / window_elapsed Sim.start) = zero.
Proof.
  assert (Hpos : 0 < window_elapsed (inserted Sim.twelve Sim.start)).
  { vm_compute. reflexivity. }
  assert (Hpos0 : 0 < window_elapsed Sim.start).
  { vm_compute. reflexivity. }
  assert (Hlt : window_processed Sim.start < window_elapsed Sim.start).
  { vm_compute. reflexivity. }
  split; [exact Hpos|]. split; [vm_compute; reflexivity|].
  split.
  - exact (proj1 (C10_throughput_floor Sim.tempFiles 0 (Sim.mkBundle 1 [4])
                    (inserted Sim.twelve Sim.start) Hpos)).
  - split; [exact Hpos0|]. split; [exact Hlt|].
    exact (proj2 (proj2 (C10_throughput_floor Sim.tempFiles 0 (Sim.mkBundle 1 [4])
                           Sim.start Hpos0)) Hlt).
Defined.

(** *** Runs for the further properties *)

Lemma X6_statistics_order_independent_witness :
  Permutation [Sim.mkTable 10 [] 5; Sim.mkTable 20 [] 7]
              [Sim.mkTable 20 [] 7; Sim.mkTable 10 [] 5] /\
  statistics_after [Sim.mkTable 10 [] 5; Sim.mkTable 20 [] 7] (two64 - 3, 0, 0) =
  statistics_after [Sim.mkTable 20 [] 7; Sim.mkTable 10 [] 5] (two64 - 3, 0, 0).
Proof.
  assert (Hp : Permutation [Sim.mkTable 10 [] 5; Sim.mkTable 20 [] 7]
                           [Sim.mkTable 20 [] 7; Sim.mkTable 10 [] 5]).
  { apply perm_swap. }
  split; [exact Hp|].
  exact (X6_statistics_order_independent _ _ (two64 - 3, 0, 0) Hp).
Defined.

Lemma X7_window_counts_its_bundles_witness :
  curTempFileId Sim.start <> getTempFileId (Sim.mkBundle 1 [4; 4]) /\
  Forall (fun b => getTempFileId b = getTempFileId (Sim.mkBundle 1 [4; 4]))
         [Sim.mkBundle 1 [5]] /\
  exists s' l,
    while_swapPop Sim.tempFiles 0 [Sim.mkBundle 1 [4; 4]; Sim.mkBundle 1 [5]]
      Sim.start = Some (tt, s', l) /\
    window_processed s' = 3.
Proof.
  assert (Hc : curTempFileId Sim.start <> getTempFileId (Sim.mkBundle 1 [4; 4])).
  { vm_compute. discriminate. }
  assert (Hq : Forall (fun b => getTempFileId b = getTempFileId (Sim.mkBundle 1 [4; 4]))
                      [Sim.mkBundle 1 [5]]).
  { repeat constructor. }
  assert (Hext : forall t : Sim.Table,
            getKMersNumber (extractAndClear t) = getKMersNumber t).
  { intros t. reflexivity. }
  assert (Hinit : forall (n : Z) (t : Sim.Table),
            getKMersNumber (init n t) = getKMersNumber t).
  { intros n t. reflexivity. }
  assert (Hadd : forall (b : Sim.Bundle) (t : Sim.Table),
            getKMersNumber (addBundle b t) =
            add_u64 (getKMersNumber t) (Sim.size b)).
  { intros b t. reflexivity. }
  split; [exact Hc|]. split; [exact Hq|].
  destruct (X7_window_counts_its_bundles Sim.tempFiles 0 Sim.size
              (Sim.mkBundle 1 [4; 4]) [Sim.mkBundle 1 [5]] Sim.start
              Hext Hinit Hadd Hc Hq)
    as [s' [l [Hw Hp]]].
  exists s', l. split; [exact Hw|]. rewrite Hp. reflexivity.
Defined.

Lemma X8_negative_duration_witness :
  is_u64 5 /\ - two63 <= -1 < 0 /\
  throughput_of 5 (-1) = Some zero /\
  throughput_of (two64 - 1) (-1) = Some (of_u64 1).
Proof.
  assert (H5 : is_u64 5) by (unfold is_u64, two64; lia).
  assert (Hm : is_u64 (two64 - 1)) by (unfold is_u64, two64; lia).
  assert (Hd : - two63 <= -1 < 0) by (unfold two63; lia).
  split; [exact H5|]. split; [exact Hd|]. split.
  - exact (X8_negative_duration 5 (-1) H5 Hd).
  - exact (X8_negative_duration (two64 - 1) (-1) Hm Hd).
Defined.

Lemma X9_constructor_reports_capacities_witness :
  HasherTask_new (D := Sim.Distributor) true Sim.fresh_table 2 [] =
    Ok (mkHasherTask 2 [Sim.mkTable 100 [] 0; Sim.mkTable 200 [] 0] 0 0 0, []) /\
  List.length [Sim.mkTable 100 [] 0; Sim.mkTable 200 [] 0] = Z.to_nat 2.
Proof.
  assert (Hn : HasherTask_new (D := Sim.Distributor) true Sim.fresh_table 2 [] =
    Ok (mkHasherTask 2 [Sim.mkTable 100 [] 0; Sim.mkTable 200 [] 0] 0 0 0, [])).
  { reflexivity. }
  split; [exact Hn|].
  exact (proj1 (proj2 (X9_constructor_reports_capacities
                         Sim.fresh_table 2 [] _ _ Hn))).
Defined.

Lemma X12_join_needs_running_threads_witness :
  0 < 2 /\
  join 2 (new_threads true 2) = None /\
  join 2 (new_threads false 2) = None /\
  join 2 [Running 0; Running 1] = Some ([0; 1], [Dangling; Dangling]) /\
  join 2 [Dangling; Dangling] = None /\
  hash_threads false 2 (new_threads false 2) = Throw no_gpu_support /\
  0 <= 0 /\
  join 0 (new_threads true 0) = Some ([], []).
Proof.
  assert (H2 : 0 < 2) by lia.
  assert (H0 : 0 <= 0) by lia.
  assert (Hj : join 2 [Running 0; Running 1] = Some ([0; 1], [Dangling; Dangling])).
  { reflexivity. }
  split; [exact H2|].
  split; [exact (proj1 (X12_join_needs_running_threads true 2) H2)|].
  split; [exact (proj1 (X12_join_needs_running_threads false 2) H2)|].
  split; [exact Hj|].
  split; [exact (proj1 (proj2 (X12_join_needs_running_threads true 2)) H2 _ _ _ Hj)|].
  split; [exact (proj1 (proj2 (proj2 (X12_join_needs_running_threads false 2))) H2 _)|].
  split; [exact H0|].
  exact (proj2 (proj2 (proj2 (X12_join_needs_running_threads true 0))) H0 _).
Defined.

Lemma X13_single_file_run_witness :
  getTempFileId (Sim.mkBundle 0 [1; 2]) <> uint32_max /\
  Forall (fun b => getTempFileId b = getTempFileId (Sim.mkBundle 0 [1; 2]))
         [Sim.mkBundle 0 [2; 3]; Sim.mkBundle 0 [1]] /\
  exists thr newSize s',
    hash_thread Sim.tempFiles 0
      (Sim.mkBundle 0 [1; 2] :: [Sim.mkBundle 0 [2; 3]; Sim.mkBundle 0 [1]])
      Sim.start =
      Some (tt, s',
            change_calls 0 (Sim.mkBundle 0 [1; 2]) thr newSize ++
            map CAddBundle [Sim.mkBundle 0 [2; 3]; Sim.mkBundle 0 [1]] ++
            [CExtractAndClear]).
Proof.
  assert (Hk : getTempFileId (Sim.mkBundle 0 [1; 2]) <> uint32_max).
  { vm_compute. discriminate. }
  assert (Hq : Forall (fun b => getTempFileId b = getTempFileId (Sim.mkBundle 0 [1; 2]))
                      [Sim.mkBundle 0 [2; 3]; Sim.mkBundle 0 [1]]).
  { repeat constructor. }
  split; [exact Hk|]. split; [exact Hq|].
  exact (X13_single_file_run Sim.tempFiles 0 (Sim.mkBundle 0 [1; 2])
           [Sim.mkBundle 0 [2; 3]; Sim.mkBundle 0 [1]] Sim.start Hk Hq).
Defined.

Lemma X14_first_report_is_zero_witness :
  getTempFileId (Sim.mkBundle 0 [1; 2]) <> uint32_max /\
  getKMersNumber (extractAndClear (table Sim.start)) = 0 /\
  exists s' l,
    hash_thread Sim.tempFiles 0 [Sim.mkBundle 0 [1; 2]] Sim.start =
      Some (tt, s',
            change_calls 0 (Sim.mkBundle 0 [1; 2]) zero
              (newSize_for Sim.tempFiles 0 0 zero (spawned Sim.start)) ++ l).
Proof.
  assert (Hk : getTempFileId (Sim.mkBundle 0 [1; 2]) <> uint32_max).
  { vm_compute. discriminate. }
  assert (Hz : getKMersNumber (extractAndClear (table Sim.start)) = 0).
  { reflexivity. }
  split; [exact Hk|]. split; [exact Hz|].
  exact (X14_first_report_is_zero Sim.tempFiles 0 (Sim.mkBundle 0 [1; 2]) []
           Sim.start Hk Hz).
Defined.

(** The product of line 171 on the reference machine: exact for small
    numbers, rounded to 24 bits beyond, cut to its integer part. *)
Example times_ratio_values :
  times_ratio 8000 (of_u64 1) = 8000 /\
  times_ratio 1001 (S754_finite false 8388608 (-24)) = 500 /\
  times_ratio 16777217 (of_u64 1) = 16777216 /\
  times_ratio 1000 S754_nan = out_of_range_u64 S754_nan.
Proof. repeat split; vm_compute; reflexivity. Qed.
